(** * Highlight selector: scoring, ranking, selection and explanation

    A shallow embedding of the two implementations of the highlight
    selection pipeline kept in the repository,

      - [track1-speckit/highlight_selector/{models,selector}.py]  (module [Track1])
      - [track2-bmad/highlight_selector/{models,selector}.py]     (module [Track2])

    Python [int] is [Z], [str] is [string] (a byte string: equality,
    concatenation and the lexicographic order of UTF-8 bytes agree with those of
    code points), [list] is [list], [Optional[T]] is [option T], a [dict] is an
    association list in insertion order with unique keys. *)

From Stdlib Require Import List ZArith Lia Bool String Ascii.
From Stdlib Require Import Permutation Sorted OrderedTypeEx.
Import ListNotations.

Local Open Scope string_scope.
Local Open Scope Z_scope.

(* ================================================================== *)
(** ** Python built-ins used by the selector modules *)

(** [len(l)] *)
Definition len {A : Type} (l : list A) : Z := Z.of_nat (List.length l).

(** [l[:k]] for an arbitrary integer [k]: a negative bound counts from the
    end and is clipped at the start of the list. *)
Definition slice_to {A : Type} (k : Z) (l : list A) : list A :=
  if k <? 0 then firstn (Z.to_nat (Z.max 0 (len l + k))) l
  else firstn (Z.to_nat k) l.

(** Truthiness of a string: the empty string is falsy. *)
Definition str_truthy (s : string) : bool := negb (String.eqb s "").

(** Truthiness of an [Optional[str]]. *)
Definition opt_str_truthy (o : option string) : bool :=
  match o with
  | None => false
  | Some s => str_truthy s
  end.

(** [x in l] for a list of strings. *)
Fixpoint str_in (x : string) (l : list string) : bool :=
  match l with
  | [] => false
  | y :: l' => String.eqb x y || str_in x l'
  end.

(** [s.replace(old, new)] for one-character [old] and [new]. *)
Fixpoint replace_char (old new : ascii) (s : string) : string :=
  match s with
  | EmptyString => EmptyString
  | String c s' =>
      String (if Ascii.eqb c old then new else c) (replace_char old new s')
  end.

(** [c.upper()] on an ASCII character. *)
Definition upper_ascii (c : ascii) : ascii :=
  let n := N_of_ascii c in
  if ((97 <=? n) && (n <=? 122))%N then ascii_of_N (n - 32) else c.

(** [s[0].upper() + s[1:]]; the source only evaluates it on a non-empty
    string (an [IndexError] otherwise), hence the option. *)
Definition capitalize_first (s : string) : option string :=
  match s with
  | EmptyString => None
  | String c s' => Some (String (upper_ascii c) s')
  end.

(** [sep.join(parts)] is [String.concat sep parts]. *)
Definition join (sep : string) (parts : list string) : string :=
  String.concat sep parts.

(** *** Dictionaries from [str] to [int], in insertion order *)

Definition dict := list (string * Z).

(** [d.get(k)] *)
Fixpoint dict_get (k : string) (d : dict) : option Z :=
  match d with
  | [] => None
  | (k', v) :: d' => if String.eqb k k' then Some v else dict_get k d'
  end.

(** [k in d] *)
Definition dict_mem (k : string) (d : dict) : bool :=
  match dict_get k d with
  | Some _ => true
  | None => false
  end.

(** [d.get(k, default)] *)
Definition dict_get_default (k : string) (default : Z) (d : dict) : Z :=
  match dict_get k d with
  | Some v => v
  | None => default
  end.

(** [d[k] = v]: an existing key keeps its position, a new key goes last. *)
Fixpoint dict_set (k : string) (v : Z) (d : dict) : dict :=
  match d with
  | [] => [(k, v)]
  | (k', v') :: d' =>
      if String.eqb k k' then (k, v) :: d' else (k', v') :: dict_set k v d'
  end.

Definition dict_keys (d : dict) : list string := map fst d.

(** [sum(d.values())] *)
Definition dict_values_sum (d : dict) : Z :=
  fold_right (fun kv acc => snd kv + acc) 0 d.

(** *** Sorting

    [sorted(l, key=f)] and [l.sort(key=f)] are stable and compare keys with
    [<] only.  The result of a stable sort does not depend on the algorithm, so
    it is given here by insertion from the right: an element goes in front of
    the first element whose key is not strictly smaller than its own. *)
Section StableSort.
Context {A K : Type}.
Variable ltb : K -> K -> bool.
Variable key : A -> K.

Fixpoint sort_insert (x : A) (l : list A) : list A :=
  match l with
  | [] => [x]
  | y :: l' =>
      if ltb (key y) (key x) then y :: sort_insert x l' else x :: y :: l'
  end.

Fixpoint sorted (l : list A) : list A :=
  match l with
  | [] => []
  | x :: l' => sort_insert x (sorted l')
  end.

(** [x] may stand in front of [y]: the key of [y] is not smaller. *)
Definition key_le (x y : A) : Prop := ltb (key y) (key x) = false.
End StableSort.

(** Sort keys are tuples [(int, int, int, str)], compared
    lexicographically. *)
Definition sort_key_t : Type := (Z * Z * Z * string)%type.

Definition key_ltb (k1 k2 : sort_key_t) : bool :=
  let '(a1, b1, c1, s1) := k1 in
  let '(a2, b2, c2, s2) := k2 in
  (a1 <? a2) ||
  ((a1 =? a2) &&
   ((b1 <? b2) ||
    ((b1 =? b2) &&
     ((c1 <? c2) || ((c1 =? c2) && String.ltb s1 s2))))).

(** [enumerate(l, start=n)] *)
Fixpoint enumerate {A : Type} (start : Z) (l : list A) : list (Z * A) :=
  match l with
  | [] => []
  | x :: l' => (start, x) :: enumerate (start + 1) l'
  end.

(* ================================================================== *)
(** ** Data model ([models.py], the same fields in both tracks) *)

Record GameEvent : Type := mkGameEvent {
  id : string;
  type : string;
  timestamp : string;
  quarter : Z;
  player : string;
  team : string;
  description : string;
  importance : string;
  tags : list string
}.

Record UserPreference : Type := mkUserPreference {
  favorite_player : option string;
  favorite_team : option string
}.

Record ScoreBreakdown : Type := mkScoreBreakdown {
  base_score : Z;
  player_boost : Z;
  team_boost : Z;
  context_boosts : dict;
  total_score : Z
}.

Record Highlight : Type := mkHighlight {
  event : GameEvent;
  rank : Z;
  score : Z;
  explanation : string
}.

Definition scored : Type := (GameEvent * ScoreBreakdown)%type.

(** [item[0].importance == "critical"] *)
Definition is_critical (item : scored) : bool :=
  String.eqb (importance (fst item)) "critical".

(* ================================================================== *)
(** ** Track 1: [track1-speckit/highlight_selector] *)

Module Track1.

(** [models.IMPORTANCE_RANK] *)
Definition IMPORTANCE_RANK : dict :=
  [("critical", 4); ("high", 3); ("medium", 2); ("low", 1)].

Definition BASE_SCORES : dict :=
  [("critical", 100); ("high", 75); ("medium", 50); ("low", 25)].

Definition CONTEXT_BOOST_MAP : dict :=
  [("clutch", 20); ("highlight_reel", 15); ("game_winner", 25);
   ("buzzer_beater", 20)].

Definition FOURTH_QUARTER_BOOST : Z := 10.
Definition PLAYER_BOOST : Z := 30.
Definition TEAM_BOOST : Z := 15.
Definition MIN_HIGHLIGHTS : Z := 5.
Definition MAX_HIGHLIGHTS : Z := 8.

(** [ScoreBreakdown(base_score, player_boost, team_boost, context_boosts,
    total_score)] followed by [__post_init__]: a total of 0 is taken as
    "not provided" and replaced by the sum of the components. *)
Definition new_ScoreBreakdown
    (base player team : Z) (context : dict) (total : Z) : ScoreBreakdown :=
  mkScoreBreakdown base player team context
    (if total =? 0
     then base + player + team + dict_values_sum context
     else total).

(** The [for tag in event.tags] loop of [score_event]. *)
Definition tag_boosts (tag_list : list string) : dict :=
  fold_left
    (fun boosts tag =>
       if dict_mem tag CONTEXT_BOOST_MAP
       then dict_set tag (dict_get_default tag 0 CONTEXT_BOOST_MAP) boosts
       else boosts)
    tag_list [].

Definition score_event
    (ev : GameEvent) (prefs : option UserPreference) : ScoreBreakdown :=
  let importance :=
    if dict_mem (importance ev) BASE_SCORES then importance ev else "low" in
  (* BASE_SCORES[importance]: the key is present by the line above *)
  let base_score := dict_get_default importance 0 BASE_SCORES in
  let player_boost :=
    match prefs with
    | Some p =>
        match favorite_player p with
        | Some fp =>
            if str_truthy fp && String.eqb (player ev) fp
            then PLAYER_BOOST else 0
        | None => 0
        end
    | None => 0
    end in
  let team_boost :=
    match prefs with
    | Some p =>
        match favorite_team p with
        | Some ft =>
            if str_truthy ft && String.eqb (team ev) ft
            then TEAM_BOOST else 0
        | None => 0
        end
    | None => 0
    end in
  let context_boosts := tag_boosts (tags ev) in
  let context_boosts :=
    if quarter ev =? 4
    then dict_set "fourth_quarter" FOURTH_QUARTER_BOOST context_boosts
    else context_boosts in
  new_ScoreBreakdown base_score player_boost team_boost context_boosts 0.

Definition _importance_rank (importance : string) : Z :=
  dict_get_default importance 0 IMPORTANCE_RANK.

(** The local function [sort_key] of [rank_and_filter]. *)
Definition sort_key (item : scored) : sort_key_t :=
  let '(ev, breakdown) := item in
  (- total_score breakdown,
   - quarter ev,
   - _importance_rank (importance ev),
   id ev).

(** The [for item in non_critical] loop of [rank_and_filter], with its
    [break]. *)
Fixpoint fill (max_count : Z) (result non_critical : list scored)
    : list scored :=
  match non_critical with
  | [] => result
  | item :: rest =>
      if len result >=? max_count then result
      else fill max_count (result ++ [item])%list rest
  end.

Definition rank_and_filter
    (scored_events : list scored) (min_count max_count : Z)
    : list scored :=
  match scored_events with
  | [] => []
  | _ =>
      let sorted_events := sorted key_ltb sort_key scored_events in
      let critical := filter is_critical sorted_events in
      let non_critical :=
        filter (fun item => negb (is_critical item)) sorted_events in
      let critical :=
        if len critical >? max_count
        then slice_to max_count critical else critical in
      let result := fill max_count critical non_critical in
      sorted key_ltb sort_key result
  end.

(** Sentence 1 of [generate_explanation]. *)
Definition importance_sentence (ev : GameEvent) : string :=
  let event_type_display := replace_char "_" " " (type ev) in
  (if String.eqb (importance ev) "critical" then
     "This critical " ++ event_type_display ++ " by " ++ player ev
     ++ " was a defining moment of the game."
   else if String.eqb (importance ev) "high" then
     "A high-impact " ++ event_type_display ++ " by " ++ player ev
     ++ " that made a significant difference."
   else if String.eqb (importance ev) "medium" then
     "A notable " ++ event_type_display ++ " by " ++ player ev
     ++ " that contributed to the game's story."
   else
     "This " ++ event_type_display ++ " by " ++ player ev
     ++ " added to the overall flow of the game.")%string.

(** The list [details] of [generate_explanation]. *)
Definition explanation_details
    (ev : GameEvent) (breakdown : ScoreBreakdown) : list string :=
  ((if str_in "game_winner" (tags ev) then ["sealed the victory"] else [])
   ++ (if str_in "clutch" (tags ev) && (quarter ev =? 4)
       then ["in a clutch fourth-quarter moment"]
       else if str_in "clutch" (tags ev) then ["in a clutch moment"]
       else [])
   ++ (if str_in "buzzer_beater" (tags ev)
       then ["right at the buzzer"] else [])
   ++ (if str_in "highlight_reel" (tags ev)
          && negb (str_in "game_winner" (tags ev))
       then ["a highlight-reel play"] else [])
   ++ (if player_boost breakdown >? 0
       then [("featuring your favorite player, " ++ player ev)%string]
       else [])
   ++ (if team_boost breakdown >? 0
       then [("by your favorite team, the " ++ team ev)%string]
       else []))%list.

(** [generate_explanation]; [None] is the [IndexError] that
    [detail_text[0]] raises on an empty [detail_text]. *)
Definition generate_explanation_checked
    (ev : GameEvent) (breakdown : ScoreBreakdown) : option string :=
  let parts := [importance_sentence ev] in
  let details := explanation_details ev breakdown in
  match details with
  | [] => Some (join " " parts)
  | _ =>
      let detail_text := join ", " details in
      match capitalize_first detail_text with
      | Some cap => Some (join " " (parts ++ [(cap ++ ".")%string])%list)
      | None => None
      end
  end.

Definition generate_explanation
    (ev : GameEvent) (breakdown : ScoreBreakdown) : string :=
  match generate_explanation_checked ev breakdown with
  | Some s => s
  | None => ""
  end.

Definition select_highlights
    (events : list GameEvent) (prefs : option UserPreference)
    (min_count max_count : Z) : list Highlight :=
  match events with
  | [] => []
  | _ =>
      let prefs :=
        match prefs with
        | None => mkUserPreference None None
        | Some p => p
        end in
      let scored_events :=
        map (fun ev => (ev, score_event ev (Some prefs))) events in
      let filtered := rank_and_filter scored_events min_count max_count in
      map (fun '(rank, (ev, breakdown)) =>
             mkHighlight ev rank (total_score breakdown)
               (generate_explanation ev breakdown))
          (enumerate 1 filtered)
  end.

End Track1.

(* ================================================================== *)
(** ** Track 2: [track2-bmad/highlight_selector] *)

Module Track2.

Definition importance_map : dict :=
  [("critical", 100); ("high", 75); ("medium", 50); ("low", 25)].

Definition calculate_base_score (ev : GameEvent) : Z :=
  dict_get_default (importance ev) 25 importance_map.

Definition calculate_player_boost
    (ev : GameEvent) (preference : option UserPreference) : Z :=
  match preference with
  | None => 0
  | Some p =>
      match favorite_player p with
      | None => 0
      | Some fp => if String.eqb (player ev) fp then 30 else 0
      end
  end.

Definition calculate_team_boost
    (ev : GameEvent) (preference : option UserPreference) : Z :=
  match preference with
  | None => 0
  | Some p =>
      match favorite_team p with
      | None => 0
      | Some ft => if String.eqb (team ev) ft then 15 else 0
      end
  end.

Definition tag_boost_map : dict :=
  [("clutch", 20); ("game_winner", 25); ("buzzer_beater", 15);
   ("highlight_reel", 15); ("fourth_quarter", 10)].

Definition calculate_context_boosts (ev : GameEvent) : dict :=
  fold_left
    (fun boosts tag =>
       if dict_mem tag tag_boost_map
       then dict_set tag (dict_get_default tag 0 tag_boost_map) boosts
       else boosts)
    (tags ev) [].

Definition calculate_score
    (ev : GameEvent) (preference : option UserPreference)
    : ScoreBreakdown :=
  let base := calculate_base_score ev in
  let player := calculate_player_boost ev preference in
  let team := calculate_team_boost ev preference in
  let context := calculate_context_boosts ev in
  let total := base + player + team + dict_values_sum context in
  mkScoreBreakdown base player team context total.

Definition importance_rank : dict :=
  [("critical", 4); ("high", 3); ("medium", 2); ("low", 1)].

Definition _create_sort_key (ev : GameEvent) (score : Z) : sort_key_t :=
  let importance_value := dict_get_default (importance ev) 0 importance_rank in
  (- score, - quarter ev, - importance_value, id ev).

(** The key function [lambda x: _create_sort_key(x[0], x[1].total_score)]. *)
Definition sort_key (x : scored) : sort_key_t :=
  _create_sort_key (fst x) (total_score (snd x)).

Definition has_player (favorite_player : string) (x : scored) : bool :=
  String.eqb (player (fst x)) favorite_player.

Definition _apply_favorite_player_rule
    (scored_events : list scored) (favorite_player : string)
    : list scored :=
  let fav_events := filter (has_player favorite_player) scored_events in
  if len fav_events <? 3 then scored_events
  else
    let selection_size := len scored_events in
    let required_fav_count := (selection_size + 1) / 2 in
    let current_fav_count :=
      len (filter (has_player favorite_player) scored_events) in
    if current_fav_count >=? required_fav_count then scored_events
    else
      let fav_in_selection :=
        filter (has_player favorite_player) scored_events in
      let non_fav_in_selection :=
        filter (fun x => negb (has_player favorite_player x))
               scored_events in
      let all_fav_events :=
        filter (has_player favorite_player) scored_events in
      let needed := required_fav_count - current_fav_count in
      let selected_fav := slice_to required_fav_count all_fav_events in
      let remaining_slots := selection_size - len selected_fav in
      let selected_non_fav :=
        slice_to remaining_slots non_fav_in_selection in
      let combined := (selected_fav ++ selected_non_fav)%list in
      sorted key_ltb sort_key combined.

Definition importance_phrases : list (string * string) :=
  [("critical", "Critical game moment"); ("high", "High-impact play");
   ("medium", "Notable play"); ("low", "Contributing play")].

Definition tag_phrases : list (string * string) :=
  [("clutch", "in a clutch situation");
   ("game_winner", "as the game-winner");
   ("buzzer_beater", "at the buzzer");
   ("highlight_reel", "with highlight-reel quality");
   ("fourth_quarter", "in the critical fourth quarter")].

Fixpoint phrase_get (k : string) (d : list (string * string))
    : option string :=
  match d with
  | [] => None
  | (k', v) :: d' => if String.eqb k k' then Some v else phrase_get k d'
  end.

(** The [for tag in breakdown.context_boosts] loop of
    [_generate_explanation], with its [break]. *)
Fixpoint first_tag_phrase (keys : list string) : list string :=
  match keys with
  | [] => []
  | tag :: rest =>
      match phrase_get tag tag_phrases with
      | Some phrase => [phrase]
      | None => first_tag_phrase rest
      end
  end.

Definition _generate_explanation
    (ev : GameEvent) (breakdown : ScoreBreakdown)
    (preference : option UserPreference) : string :=
  let head :=
    match phrase_get (importance ev) importance_phrases with
    | Some phrase => phrase
    | None => "Notable play"
    end in
  let parts := [head] in
  let parts :=
    if player_boost breakdown >? 0
    then (parts ++ [("featuring your favorite player " ++ player ev)%string])%list
    else if team_boost breakdown >? 0
    then (parts ++ [("by your favorite team " ++ team ev)%string])%list
    else parts in
  let parts :=
    match context_boosts breakdown with
    | [] => parts
    | _ => (parts ++ first_tag_phrase (dict_keys (context_boosts breakdown)))%list
    end in
  if len parts =? 1 then (head ++ ".")%string
  else (head ++ " " ++ join " " (tl parts) ++ ".")%string.

Definition select_highlights
    (events : list GameEvent) (preference : option UserPreference)
    (min_count max_count : Z) : list Highlight :=
  match events with
  | [] => []
  | _ =>
      let scored_events :=
        map (fun ev => (ev, calculate_score ev preference)) events in
      let scored_events := sorted key_ltb sort_key scored_events in
      let critical_events := filter is_critical scored_events in
      let non_critical_events :=
        filter (fun x => negb (is_critical x)) scored_events in
      let num_non_critical := len non_critical_events in
      let selected_non_critical :=
        if num_non_critical <=? min_count then non_critical_events
        else if num_non_critical <=? max_count then non_critical_events
        else slice_to max_count non_critical_events in
      let selected := (critical_events ++ selected_non_critical)%list in
      let selected :=
        match preference with
        | Some p =>
            match favorite_player p with
            | Some fp =>
                if str_truthy fp
                then _apply_favorite_player_rule selected fp
                else selected
            | None => selected
            end
        | None => selected
        end in
      map (fun '(rank, (ev, breakdown)) =>
             mkHighlight ev rank (total_score breakdown)
               (_generate_explanation ev breakdown preference))
          (enumerate 1 selected)
  end.

End Track2.

(* ================================================================== *)
(** ** Vocabulary of the properties and sample inputs *)

(** [key_ltb b a = false], spelt out: [a] is lexicographically at most
    [b]. *)
Definition key_leq (a b : sort_key_t) : Prop :=
  let '(a1, a2, a3, a4) := a in
  let '(b1, b2, b3, b4) := b in
  a1 <= b1 /\
  (a1 = b1 ->
   a2 <= b2 /\
   (a2 = b2 ->
    a3 <= b3 /\
    (a3 = b3 -> String.ltb b4 a4 = false))).

(** The tag loop shared by both scorers: every tag found in the lookup
    table [m] sets its entry. *)
Definition tag_step (m : dict) (boosts : dict) (tag : string) : dict :=
  if dict_mem tag m
  then dict_set tag (dict_get_default tag 0 m) boosts
  else boosts.

(** The sum of the components of a breakdown. *)
Definition components_sum (b : ScoreBreakdown) : Z :=
  base_score b + player_boost b + team_boost b
  + dict_values_sum (context_boosts b).

(** The lookup table as the specification words it. *)
Definition spec_boost_lookup : dict :=
  [("clutch", 20); ("game_winner", 25); ("buzzer_beater", 20);
   ("highlight_reel", 15)].

(** [d] holds exactly one entry per tag of [ev] found in [table], with the
    table's value. *)
Definition tag_entries (table : dict) (ev : GameEvent) (d : dict) : Prop :=
  NoDup (dict_keys d) /\
  forall k v,
    dict_get k d = Some v <-> In k (tags ev) /\ dict_get k table = Some v.

(** [d] holds exactly the entries of the specification: one per tag of [ev]
    found in the lookup, and ["fourth_quarter"] with value 10 if and only if
    the quarter is 4. *)
Definition context_boosts_as_specified (ev : GameEvent) (d : dict) : Prop :=
  NoDup (dict_keys d) /\
  forall k v,
    dict_get k d = Some v <->
    (In k (tags ev) /\ dict_get k spec_boost_lookup = Some v) \/
    (k = "fourth_quarter" /\ v = 10 /\ quarter ev = 4).

(** [event.importance == "critical"] *)
Definition critical_event (ev : GameEvent) : bool :=
  String.eqb (importance ev) "critical".

(** The critical events of an input. *)
Definition critical_of (events : list GameEvent) : list GameEvent :=
  filter critical_event events.

(** The events of an input that are not critical. *)
Definition non_critical_of (events : list GameEvent) : list GameEvent :=
  filter (fun ev => negb (critical_event ev)) events.

(** [select_highlights] of track 1 replaces an absent preference by
    [UserPreference()]. *)
Definition t1_prefs (prefs : option UserPreference) : UserPreference :=
  match prefs with
  | None => mkUserPreference None None
  | Some p => p
  end.

(** The breakdown track 1 attaches to an event. *)
Definition t1_score (prefs : option UserPreference) (ev : GameEvent)
    : ScoreBreakdown :=
  Track1.score_event ev (Some (t1_prefs prefs)).

(** The [Highlight] track 1 builds from a ranked item. *)
Definition t1_highlight (x : Z * scored) : Highlight :=
  let '(rank, (ev, breakdown)) := x in
  mkHighlight ev rank (total_score breakdown)
    (Track1.generate_explanation ev breakdown).

(** The critical events [rank_and_filter] keeps. *)
Definition t1_kept_critical (max_count : Z) (sorted_events : list scored)
    : list scored :=
  let critical := filter is_critical sorted_events in
  if len critical >? max_count then slice_to max_count critical else critical.

(** The [Highlight] track 2 builds from a ranked item. *)
Definition t2_highlight (preference : option UserPreference) (x : Z * scored)
    : Highlight :=
  let '(rank, (ev, breakdown)) := x in
  mkHighlight ev rank (total_score breakdown)
    (Track2._generate_explanation ev breakdown preference).

(** Step 4 of [select_highlights]: the non-critical events kept. *)
Definition t2_pick (mn mx : Z) (non_critical_events : list scored)
    : list scored :=
  if len non_critical_events <=? mn then non_critical_events
  else if len non_critical_events <=? mx then non_critical_events
  else slice_to mx non_critical_events.

(** Step 5 of [select_highlights]. *)
Definition t2_quota (preference : option UserPreference)
    (selected : list scored) : list scored :=
  match preference with
  | Some p =>
      match favorite_player p with
      | Some fp =>
          if str_truthy fp
          then Track2._apply_favorite_player_rule selected fp
          else selected
      | None => selected
      end
  | None => selected
  end.

(** Steps 1 to 5 of [select_highlights]. *)
Definition t2_selection (events : list GameEvent)
    (preference : option UserPreference) (mn mx : Z) : list scored :=
  let scored_events :=
    sorted key_ltb Track2.sort_key
      (map (fun ev => (ev, Track2.calculate_score ev preference)) events) in
  t2_quota preference
    (filter is_critical scored_events
     ++ t2_pick mn mx
          (filter (fun x => negb (is_critical x)) scored_events))%list.

(** An event with the defaults of the test helper [make_event]. *)
Definition plain_event (i importance : string) : GameEvent :=
  mkGameEvent i "play" "00:00" 1 "Player" "TEAM" "" importance [].


(** Two critical events. *)
Definition two_critical : list GameEvent :=
  [plain_event "a" "critical"; plain_event "b" "critical"].

(** Nine critical events, one more than the default [max_count]. *)
Definition nine_critical : list GameEvent :=
  map (fun i => plain_event i "critical")
      ["c0"; "c1"; "c2"; "c3"; "c4"; "c5"; "c6"; "c7"; "c8"].

(** Two different events that share their id, score, quarter and
    importance. *)
Definition shared_id_first : GameEvent :=
  mkGameEvent "a" "play" "00:00" 1 "Player" "TEAM" "first" "high" [].

Definition shared_id_second : GameEvent :=
  mkGameEvent "a" "play" "00:00" 1 "Player" "TEAM" "second" "high" [].

(** Three medium events. *)
Definition three_medium : list GameEvent :=
  [plain_event "a" "medium"; plain_event "b" "medium";
   plain_event "c" "medium"].

(** The comparator, read between two highlights: [h1] may be ranked in
    front of [h2]. *)
Definition ranked_before (h1 h2 : Highlight) : Prop :=
  score h1 >= score h2 /\
  (score h1 = score h2 ->
   quarter (event h1) >= quarter (event h2) /\
   (quarter (event h1) = quarter (event h2) ->
    Track1._importance_rank (importance (event h1))
    >= Track1._importance_rank (importance (event h2)) /\
    (Track1._importance_rank (importance (event h1))
     = Track1._importance_rank (importance (event h2)) ->
     String.leb (id (event h1)) (id (event h2)) = true))).

(** A critical event without tags and a high event tagged clutch and
    game-winner. *)
Definition critical_then_boosted_high : list GameEvent :=
  [mkGameEvent "c" "play" "00:00" 1 "Player" "TEAM" "" "critical" [];
   mkGameEvent "h" "play" "00:00" 1 "Player" "TEAM" "" "high"
               ["clutch"; "game_winner"]].

(** An event of a given player. *)
Definition player_event (i importance player : string) : GameEvent :=
  mkGameEvent i "play" "00:00" 1 player "TEAM" "" importance [].

(** Eight high events of another player and four low events of the
    favorite player "Star". *)
Definition eight_other_four_star : list GameEvent :=
  (map (fun i => player_event i "high" "Other")
       ["other0"; "other1"; "other2"; "other3";
        "other4"; "other5"; "other6"; "other7"]
   ++ map (fun i => player_event i "low" "Star")
          ["star0"; "star1"; "star2"; "star3"])%list.

(** [event.player == name] *)
Definition features (name : string) (ev : GameEvent) : bool :=
  String.eqb (player ev) name.

(** Sentence 1 as the specification words it, for the displayed type and
    the player name. *)
Definition spec_first_sentence (importance type_display player : string)
    : string :=
  (if String.eqb importance "critical" then
     "This critical " ++ type_display ++ " by " ++ player
     ++ " was a defining moment of the game."
   else if String.eqb importance "high" then
     "A high-impact " ++ type_display ++ " by " ++ player
     ++ " that made a significant difference."
   else if String.eqb importance "medium" then
     "A notable " ++ type_display ++ " by " ++ player
     ++ " that contributed to the game's story."
   else
     "This " ++ type_display ++ " by " ++ player
     ++ " added to the overall flow of the game.")%string.

(** The opening phrase of track 2, by importance. *)
Definition t2_opening (importance : string) : string :=
  if String.eqb importance "critical" then "Critical game moment"
  else if String.eqb importance "high" then "High-impact play"
  else if String.eqb importance "medium" then "Notable play"
  else if String.eqb importance "low" then "Contributing play"
  else "Notable play".

(** [c.lower()] on an ASCII character. *)
Definition lower_ascii (c : ascii) : ascii :=
  let n := N_of_ascii c in
  if ((65 <=? n) && (n <=? 90))%N then ascii_of_N (n + 32) else c.

(** [s.lower()] *)
Fixpoint lower (s : string) : string :=
  match s with
  | EmptyString => EmptyString
  | String c s' => String (lower_ascii c) (lower s')
  end.

(** [sub in s] *)
Fixpoint contains (sub s : string) : bool :=
  String.prefix sub s ||
  match s with
  | EmptyString => false
  | String _ s' => contains sub s'
  end.

(** The implementation vocabulary the repository's own test
    ([test_explanations.py], [JARGON_WORDS]) looks for in the lower-cased
    explanation. *)
Definition JARGON_WORDS : list string :=
  ["algorithm"; "score_event"; "breakdown"; "base_score"; "player_boost";
   "team_boost"; "context_boost"; "total_score"; "dataclass"; "function";
   "parameter"; "tuple"; "dict"; "integer"; "float"; "boolean"; "variable";
   "module"; "import"; "class"; "method"; "attribute"; "instance"].

(** No jargon word occurs in the lower-cased text. *)
Definition jargon_free (s : string) : bool :=
  forallb (fun w => negb (contains w (lower s))) JARGON_WORDS.

(** The event with its type, player and team texts left blank. *)
Definition without_names (ev : GameEvent) : GameEvent :=
  mkGameEvent (id ev) "" (timestamp ev) (quarter ev) "" "" (description ev)
              (importance ev) (tags ev).

(* ================================================================== *)
(** ** Vocabulary of the further properties *)

(** [list(range(start, start + n))] *)
Fixpoint py_range (start : Z) (n : nat) : list Z :=
  match n with
  | O => []
  | S n' => start :: py_range (start + 1) n'
  end.

(** The boosts of the entries of [table] whose key is among [tag_list],
    each counted once. *)
Definition tag_value (table : dict) (tag_list : list string) : Z :=
  dict_values_sum (filter (fun kv => str_in (fst kv) tag_list) table).

(** 1 when the condition holds and 0 otherwise. *)
Definition indicator (b : bool) : Z := if b then 1 else 0.

(** [name == favorite] for a name and an [Optional[str]]. *)
Definition is_favorite (name : string) (favorite : option string) : bool :=
  match favorite with
  | Some f => String.eqb name f
  | None => false
  end.

(* ================================================================== *)
(** ** JSON-like values and exceptions

    [to_dict] and [from_dict] exchange [dict[str, Any]] values.  The values
    modelled here are those [json.loads] yields except floats: [None],
    booleans, integers, strings, lists and string-keyed dictionaries
    (association lists with unique keys, in insertion order).  Every
    statement about a [pyval] or a [pydict] is therefore a statement about
    values without floats; Python also adds and compares floats, which are
    outside this model. *)

#[local] Set Warnings "-register-all".

Inductive pyval : Type :=
| PNone
| PBool (b : bool)
| PInt (z : Z)
| PStr (s : string)
| PList (l : list pyval)
| PDict (d : list (string * pyval)).

Definition pydict : Type := list (string * pyval).

Inductive exn : Type :=
| KeyError (key : string)
| TypeError
| AttributeError
| ValueError (msg : string).

Inductive result (A : Type) : Type :=
| Ok (a : A)
| Raise (e : exn).

Arguments Ok {A} a.
Arguments Raise {A} e.

(** [d.get(k)] *)
Fixpoint pd_get (k : string) (d : pydict) : option pyval :=
  match d with
  | [] => None
  | (k', v) :: d' => if String.eqb k k' then Some v else pd_get k d'
  end.

(** [d.get(k, default)] *)
Definition pd_get_default (k : string) (default : pyval) (d : pydict)
    : pyval :=
  match pd_get k d with
  | Some v => v
  | None => default
  end.

(** Lists and dictionaries cannot be hashed, so they cannot be looked up in
    a dictionary or a set. *)
Definition hashable (v : pyval) : bool :=
  match v with
  | PList _ | PDict _ => false
  | _ => true
  end.

(** The integer a value stands for in arithmetic: [bool] is a subclass of
    [int].  Among the values of [pyval] these are the only numbers. *)
Definition as_number (v : pyval) : option Z :=
  match v with
  | PInt z => Some z
  | PBool true => Some 1
  | PBool false => Some 0
  | _ => None
  end.

(** [a + b] on the values of [pyval]: integers and booleans add, strings
    and lists concatenate, anything else raises [TypeError]. *)
Definition py_add (a b : pyval) : result pyval :=
  match as_number a, as_number b with
  | Some x, Some y => Ok (PInt (x + y))
  | _, _ =>
      match a, b with
      | PStr s, PStr t => Ok (PStr (s ++ t))
      | PList l, PList m => Ok (PList (l ++ m)%list)
      | _, _ => Raise TypeError
      end
  end.

(** [sum(values)]: the additions start from 0. *)
Fixpoint py_sum_from (acc : pyval) (values : list pyval) : result pyval :=
  match values with
  | [] => Ok acc
  | v :: rest =>
      match py_add acc v with
      | Ok acc' => py_sum_from acc' rest
      | Raise e => Raise e
      end
  end.

Definition py_sum (values : list pyval) : result pyval :=
  py_sum_from (PInt 0) values.

(** [v == 0] *)
Definition py_is_zero (v : pyval) : bool :=
  match as_number v with
  | Some z => z =? 0
  | None => false
  end.

(** An [Optional[str]] as a value. *)
Definition py_of_opt_str (o : option string) : pyval :=
  match o with
  | Some s => PStr s
  | None => PNone
  end.

(** A [dict[str, int]] as a value. *)
Definition py_of_dict (d : dict) : pyval :=
  PDict (map (fun kv => (fst kv, PInt (snd kv))) d).

(** *** Instances of the data classes

    A data class does not check the types of its fields, so an instance
    built by [from_dict] holds whatever values the dictionary held.  The
    records of the data model above are the instances whose fields have the
    annotated types. *)

Record GameEventObj : Type := mkGameEventObj {
  obj_id : pyval;
  obj_type : pyval;
  obj_timestamp : pyval;
  obj_quarter : pyval;
  obj_player : pyval;
  obj_team : pyval;
  obj_description : pyval;
  obj_importance : pyval;
  obj_tags : pyval
}.

Record UserPreferenceObj : Type := mkUserPreferenceObj {
  obj_favorite_player : pyval;
  obj_favorite_team : pyval
}.

Record ScoreBreakdownObj : Type := mkScoreBreakdownObj {
  obj_base_score : pyval;
  obj_player_boost : pyval;
  obj_team_boost : pyval;
  obj_context_boosts : pyval;
  obj_total_score : pyval
}.

Record HighlightObj : Type := mkHighlightObj {
  obj_event : GameEventObj;
  obj_rank : pyval;
  obj_score : pyval;
  obj_explanation : pyval
}.

(** The instances with fields of the annotated types. *)
Definition GameEvent_obj (e : GameEvent) : GameEventObj :=
  mkGameEventObj (PStr (id e)) (PStr (type e)) (PStr (timestamp e))
    (PInt (quarter e)) (PStr (player e)) (PStr (team e))
    (PStr (description e)) (PStr (importance e)) (PList (map PStr (tags e))).

Definition UserPreference_obj (p : UserPreference) : UserPreferenceObj :=
  mkUserPreferenceObj (py_of_opt_str (favorite_player p))
                      (py_of_opt_str (favorite_team p)).

Definition ScoreBreakdown_obj (b : ScoreBreakdown) : ScoreBreakdownObj :=
  mkScoreBreakdownObj (PInt (base_score b)) (PInt (player_boost b))
    (PInt (team_boost b)) (py_of_dict (context_boosts b))
    (PInt (total_score b)).

Definition Highlight_obj (h : Highlight) : HighlightObj :=
  mkHighlightObj (GameEvent_obj (event h)) (PInt (rank h)) (PInt (score h))
                 (PStr (explanation h)).

(** The encoding of an event, the same in both tracks ([to_dict] of
    [GameEvent]). *)
Definition GameEvent_to_dict (e : GameEvent) : pydict :=
  [("id", PStr (id e)); ("type", PStr (type e));
   ("timestamp", PStr (timestamp e)); ("quarter", PInt (quarter e));
   ("player", PStr (player e)); ("team", PStr (team e));
   ("description", PStr (description e));
   ("importance", PStr (importance e));
   ("tags", PList (map PStr (tags e)))].

(** [UserPreference.to_dict], the same in both tracks. *)
Definition UserPreference_to_dict (p : UserPreference) : pydict :=
  [("favorite_player", py_of_opt_str (favorite_player p));
   ("favorite_team", py_of_opt_str (favorite_team p))].

(** [ScoreBreakdown.to_dict], the same in both tracks. *)
Definition ScoreBreakdown_to_dict (b : ScoreBreakdown) : pydict :=
  [("base_score", PInt (base_score b));
   ("player_boost", PInt (player_boost b));
   ("team_boost", PInt (team_boost b));
   ("context_boosts", py_of_dict (context_boosts b));
   ("total_score", PInt (total_score b))].

(** [Highlight.to_dict], the same in both tracks. *)
Definition Highlight_to_dict (h : Highlight) : pydict :=
  [("event", PDict (GameEvent_to_dict (event h)));
   ("rank", PInt (rank h)); ("score", PInt (score h));
   ("explanation", PStr (explanation h))].

(* ================================================================== *)
(** ** Track 1: [track1-speckit/highlight_selector/models.py] *)

Module Track1Models.

(** [GameEvent.from_dict]: the importance is looked up in
    [IMPORTANCE_RANK] first (an unhashable value raises [TypeError]), then
    the fields are read, [id] and [type] by subscript. *)
Definition GameEvent_from_dict (data : pydict) : result GameEventObj :=
  let importance := pd_get_default "importance" (PStr "low") data in
  if negb (hashable importance) then Raise TypeError
  else
    let importance :=
      match importance with
      | PStr s =>
          if dict_mem s Track1.IMPORTANCE_RANK then importance
          else PStr "low"
      | _ => PStr "low"
      end in
    match pd_get "id" data with
    | None => Raise (KeyError "id")
    | Some i =>
        match pd_get "type" data with
        | None => Raise (KeyError "type")
        | Some t =>
            Ok (mkGameEventObj i t
                  (pd_get_default "timestamp" (PStr "") data)
                  (pd_get_default "quarter" (PInt 1) data)
                  (pd_get_default "player" (PStr "Unknown") data)
                  (pd_get_default "team" (PStr "Unknown") data)
                  (pd_get_default "description" (PStr "") data)
                  importance
                  (pd_get_default "tags" (PList []) data))
        end
    end.

(** [UserPreference.from_dict]; [None] is accepted. *)
Definition UserPreference_from_dict (data : option pydict)
    : UserPreferenceObj :=
  match data with
  | None => mkUserPreferenceObj PNone PNone
  | Some d =>
      mkUserPreferenceObj (pd_get_default "favorite_player" PNone d)
                          (pd_get_default "favorite_team" PNone d)
  end.

(** [ScoreBreakdown(...)] on values without floats, with [__post_init__]:
    when the total equals 0 it is replaced by
    [base_score + player_boost + team_boost + sum(context_boosts.values())],
    evaluated from left to right. *)
Definition new_ScoreBreakdownObj
    (base player team context total : pyval) : result ScoreBreakdownObj :=
  if py_is_zero total then
    match py_add base player with
    | Raise e => Raise e
    | Ok bp =>
        match py_add bp team with
        | Raise e => Raise e
        | Ok bpt =>
            match context with
            | PDict d =>
                match py_sum (map snd d) with
                | Raise e => Raise e
                | Ok s =>
                    match py_add bpt s with
                    | Raise e => Raise e
                    | Ok t =>
                        Ok (mkScoreBreakdownObj base player team context t)
                    end
                end
            | _ => Raise AttributeError
            end
        end
    end
  else Ok (mkScoreBreakdownObj base player team context total).

(** [ScoreBreakdown.from_dict] *)
Definition ScoreBreakdown_from_dict (data : pydict)
    : result ScoreBreakdownObj :=
  match pd_get "base_score" data with
  | None => Raise (KeyError "base_score")
  | Some base =>
      match pd_get "player_boost" data with
      | None => Raise (KeyError "player_boost")
      | Some player =>
          match pd_get "team_boost" data with
          | None => Raise (KeyError "team_boost")
          | Some team =>
              new_ScoreBreakdownObj base player team
                (pd_get_default "context_boosts" (PDict []) data)
                (pd_get_default "total_score" (PInt 0) data)
          end
      end
  end.

(** [Highlight.from_dict]: the nested event is decoded first; a value
    without [get] in its place raises [AttributeError]. *)
Definition Highlight_from_dict (data : pydict) : result HighlightObj :=
  match pd_get "event" data with
  | None => Raise (KeyError "event")
  | Some (PDict event_data) =>
      match GameEvent_from_dict event_data with
      | Raise e => Raise e
      | Ok ev =>
          match pd_get "rank" data with
          | None => Raise (KeyError "rank")
          | Some r =>
              match pd_get "score" data with
              | None => Raise (KeyError "score")
              | Some s =>
                  match pd_get "explanation" data with
                  | None => Raise (KeyError "explanation")
                  | Some x => Ok (mkHighlightObj ev r s x)
                  end
              end
          end
      end
  | Some _ => Raise AttributeError
  end.

End Track1Models.

(* ================================================================== *)
(** ** Track 1: [track1-speckit/highlight_selector/cli.py] *)

Module Track1Cli.

(** [format_output] *)
Definition format_output (highlights : list Highlight) (total_events : Z)
    (prefs : UserPreference) : pydict :=
  [("highlights", PList (map (fun h => PDict (Highlight_to_dict h))
                             highlights));
   ("metadata",
    PDict [("total_events", PInt total_events);
           ("selected_count", PInt (len highlights));
           ("preferences", PDict (UserPreference_to_dict prefs))])].

End Track1Cli.

(* ================================================================== *)
(** ** Track 2: [track2-bmad/highlight_selector/models.py]

    Every [from_dict] of track 2 passes the entries of the dictionary to
    the class as keyword arguments: a key that is not a field and a missing
    field without default both raise [TypeError]. *)

Module Track2Models.

(** No key of [data] is outside [fields]. *)
Definition only_fields (fields : list string) (data : pydict) : bool :=
  forallb (fun kv => str_in (fst kv) fields) data.

Definition GameEvent_fields : list string :=
  ["id"; "type"; "timestamp"; "quarter"; "player"; "team"; "description";
   "importance"; "tags"].

(** [GameEvent.from_dict]; only [tags] has a default. *)
Definition GameEvent_from_dict (data : pydict) : result GameEventObj :=
  if only_fields GameEvent_fields data then
    match pd_get "id" data, pd_get "type" data, pd_get "timestamp" data,
          pd_get "quarter" data, pd_get "player" data, pd_get "team" data,
          pd_get "description" data, pd_get "importance" data with
    | Some i, Some t, Some ts, Some q, Some p, Some tm, Some d, Some imp =>
        Ok (mkGameEventObj i t ts q p tm d imp
              (pd_get_default "tags" (PList []) data))
    | _, _, _, _, _, _, _, _ => Raise TypeError
    end
  else Raise TypeError.

(** [UserPreference.from_dict]; both fields default to [None]. *)
Definition UserPreference_from_dict (data : pydict)
    : result UserPreferenceObj :=
  if only_fields ["favorite_player"; "favorite_team"] data then
    Ok (mkUserPreferenceObj (pd_get_default "favorite_player" PNone data)
                            (pd_get_default "favorite_team" PNone data))
  else Raise TypeError.

(** [ScoreBreakdown.from_dict]; every field is required and the total is
    stored as given. *)
Definition ScoreBreakdown_from_dict (data : pydict)
    : result ScoreBreakdownObj :=
  if only_fields ["base_score"; "player_boost"; "team_boost";
                  "context_boosts"; "total_score"] data then
    match pd_get "base_score" data, pd_get "player_boost" data,
          pd_get "team_boost" data, pd_get "context_boosts" data,
          pd_get "total_score" data with
    | Some b, Some p, Some t, Some c, Some total =>
        Ok (mkScoreBreakdownObj b p t c total)
    | _, _, _, _, _ => Raise TypeError
    end
  else Raise TypeError.

(** [Highlight.from_dict]: the nested event is read by subscript and
    decoded first; a value that is no mapping in its place raises
    [TypeError]. *)
Definition Highlight_from_dict (data : pydict) : result HighlightObj :=
  match pd_get "event" data with
  | None => Raise (KeyError "event")
  | Some (PDict event_data) =>
      match GameEvent_from_dict event_data with
      | Raise e => Raise e
      | Ok ev =>
          match pd_get "rank" data with
          | None => Raise (KeyError "rank")
          | Some r =>
              match pd_get "score" data with
              | None => Raise (KeyError "score")
              | Some s =>
                  match pd_get "explanation" data with
                  | None => Raise (KeyError "explanation")
                  | Some x => Ok (mkHighlightObj ev r s x)
                  end
              end
          end
      end
  | Some _ => Raise TypeError
  end.

End Track2Models.

(* ================================================================== *)
(** ** Track 2: [track2-bmad/highlight_selector/cli.py] *)

Module Track2Cli.

(** [s == o] for a string and an [Optional[str]]. *)
Definition eq_opt_str (s : string) (o : option string) : bool :=
  match o with
  | Some t => String.eqb s t
  | None => false
  end.

(** The [matches] flag of the loop of [apply_only_filter]. *)
Definition matches (preference : UserPreference) (h : Highlight) : bool :=
  let matches := false in
  let matches :=
    if opt_str_truthy (favorite_player preference)
       && eq_opt_str (player (event h)) (favorite_player preference)
    then true else matches in
  let matches :=
    if opt_str_truthy (favorite_team preference)
       && eq_opt_str (team (event h)) (favorite_team preference)
    then true else matches in
  matches.

Definition apply_only_filter (highlights : list Highlight)
    (preference : option UserPreference) : list Highlight :=
  match preference with
  | None => highlights
  | Some p => filter (matches p) highlights
  end.

(** [sorted(names)] for the set [names] of the given strings. *)
Definition sorted_set (names : list string) : list string :=
  sorted String.ltb (fun s => s) (nodup string_dec names).

(** [{evt.player for evt in events}] and [{evt.team for evt in events}],
    as lists. *)
Definition available_players (events : list GameEvent) : list string :=
  map player events.

Definition available_teams (events : list GameEvent) : list string :=
  map team events.

(** [validate_preferences] *)
Definition validate_preferences (player team : option string)
    (events : list GameEvent) : result (option UserPreference) :=
  if negb (opt_str_truthy player) && negb (opt_str_truthy team)
  then Ok None
  else
    let player_error :=
      match player with
      | Some name =>
          if str_truthy name && negb (str_in name (available_players events))
          then
            Some (ValueError
                    ("Player '" ++ name ++ "' not found in events. "
                     ++ "Available players: "
                     ++ join ", " (sorted_set (available_players events))))
          else None
      | None => None
      end in
    match player_error with
    | Some e => Raise e
    | None =>
        let team_error :=
          match team with
          | Some name =>
              if str_truthy name && negb (str_in name (available_teams events))
              then
                Some (ValueError
                        ("Team '" ++ name ++ "' not found in events. "
                         ++ "Available teams: "
                         ++ join ", " (sorted_set (available_teams events))))
              else None
          | None => None
          end in
        match team_error with
        | Some e => Raise e
        | None => Ok (Some (mkUserPreference player team))
        end
    end.

End Track2Cli.

(* ================================================================== *)
(** ** Vocabulary of the properties of the models *)

(** The importance [from_dict] of track 1 stores: the value itself when it
    is one of the four levels, ["low"] otherwise. *)
Definition normalized_importance (s : string) : string :=
  if dict_mem s Track1.IMPORTANCE_RANK then s else "low".

(** The event with its importance normalized. *)
Definition normalized_event (e : GameEvent) : GameEvent :=
  mkGameEvent (id e) (type e) (timestamp e) (quarter e) (player e) (team e)
              (description e) (normalized_importance (importance e)) (tags e).

(** The highlight with its event normalized. *)
Definition normalized_highlight (h : Highlight) : Highlight :=
  mkHighlight (normalized_event (event h)) (rank h) (score h)
              (explanation h).

(** The breakdown after [__post_init__] of track 1: a total of 0 is
    replaced by the sum of the components. *)
Definition recomputed_breakdown (b : ScoreBreakdown) : ScoreBreakdown :=
  mkScoreBreakdown (base_score b) (player_boost b) (team_boost b)
    (context_boosts b)
    (if total_score b =? 0 then components_sum b else total_score b).

(** The four importance levels. *)
Definition importance_levels : list string :=
  ["critical"; "high"; "medium"; "low"].

(* ================================================================== *)
(** * Properties *)

(** ** Stable sorting *)

Section SortFacts.
Context {A K : Type}.
Variable ltb : K -> K -> bool.
Variable key : A -> K.

Lemma sort_insert_perm (x : A) (l : list A) :
  Permutation (sort_insert ltb key x l) (x :: l).
Proof.
  induction l as [|y l IH]; simpl.
  - apply Permutation_refl.
  - destruct (ltb (key y) (key x)).
    + eapply perm_trans; [apply perm_skip, IH | apply perm_swap].
    + apply Permutation_refl.
Qed.

Lemma sorted_perm (l : list A) : Permutation (sorted ltb key l) l.
Proof.
  induction l as [|x l IH]; simpl.
  - constructor.
  - eapply perm_trans; [apply sort_insert_perm | apply perm_skip, IH].
Qed.

Lemma sorted_length (l : list A) :
  List.length (sorted ltb key l) = List.length l.
Proof. apply Permutation_length, sorted_perm. Qed.

Lemma sorted_In (x : A) (l : list A) :
  In x (sorted ltb key l) <-> In x l.
Proof.
  split; apply Permutation_in;
    [apply sorted_perm | apply Permutation_sym, sorted_perm].
Qed.

Hypothesis ltb_asym : forall a b, ltb a b = true -> ltb b a = false.
Hypothesis ltb_negtrans :
  forall a b c, ltb b a = false -> ltb c b = false -> ltb c a = false.

Lemma sort_insert_sorted (x : A) (l : list A) :
  StronglySorted (key_le ltb key) l -> StronglySorted (key_le ltb key) (sort_insert ltb key x l).
Proof.
  induction 1 as [|y l Hl IH Hy]; simpl.
  - constructor; constructor.
  - destruct (ltb (key y) (key x)) eqn:E.
    + constructor; [exact IH|].
      apply (Permutation_Forall (Permutation_sym (sort_insert_perm x l))).
      constructor; [|exact Hy].
      unfold key_le. now apply ltb_asym.
    + constructor; [now constructor|].
      constructor; [exact E|].
      eapply Forall_impl; [|exact Hy].
      intros z Hz. unfold key_le in *. now apply ltb_negtrans with (key y).
Qed.

Lemma sorted_StronglySorted (l : list A) :
  StronglySorted (key_le ltb key) (sorted ltb key l).
Proof.
  induction l; simpl; [constructor | now apply sort_insert_sorted].
Qed.

(** Two sorted arrangements of the same elements coincide when no two
    distinct elements have interchangeable keys. *)
Lemma StronglySorted_unique (l1 l2 : list A) :
  (forall x y, In x l1 -> In y l1 -> (key_le ltb key) x y -> (key_le ltb key) y x -> x = y) ->
  StronglySorted (key_le ltb key) l1 -> StronglySorted (key_le ltb key) l2 ->
  Permutation l1 l2 -> l1 = l2.
Proof.
  revert l2. induction l1 as [|x l1 IH]; intros l2 Hanti S1 S2 P.
  - now apply Permutation_nil in P.
  - destruct l2 as [|y l2].
    { apply Permutation_sym, Permutation_nil in P. discriminate. }
    apply StronglySorted_inv in S1 as [S1 F1].
    apply StronglySorted_inv in S2 as [S2 F2].
    rewrite Forall_forall in F1, F2.
    assert (Hy : In y (x :: l1))
      by (eapply Permutation_in; [apply Permutation_sym, P | now left]).
    assert (Hx : In x (y :: l2))
      by (eapply Permutation_in; [apply P | now left]).
    assert (x = y) as ->.
    { destruct Hy as [->|Hy]; [reflexivity|].
      destruct Hx as [->|Hx]; [reflexivity|].
      apply Hanti; [now left | now right | now apply F1 | now apply F2]. }
    f_equal. apply IH; auto.
    + intros a b Ha Hb. apply Hanti; now right.
    + now apply Permutation_cons_inv in P.
Qed.

Lemma sorted_permutation_eq (l l' : list A) :
  (forall x y, In x l -> In y l -> (key_le ltb key) x y -> (key_le ltb key) y x -> x = y) ->
  Permutation l l' -> sorted ltb key l = sorted ltb key l'.
Proof.
  intros Hanti P. apply StronglySorted_unique.
  - intros x y Hx Hy. apply Hanti; now apply sorted_In.
  - apply sorted_StronglySorted.
  - apply sorted_StronglySorted.
  - eapply perm_trans; [apply sorted_perm|].
    eapply perm_trans; [exact P | apply Permutation_sym, sorted_perm].
Qed.
End SortFacts.

(** ** The order on sort keys *)

Lemma str_ltb_asym (a b : string) :
  String.ltb a b = true -> String.ltb b a = false.
Proof.
  unfold String.ltb. rewrite (String.compare_antisym b a).
  destruct (String.compare a b); simpl; congruence.
Qed.

Lemma str_ltb_lt (a b : string) :
  String.ltb a b = true <-> String_as_OT.lt a b.
Proof.
  rewrite <- String_as_OT.cmp_lt. unfold String.ltb, String_as_OT.cmp.
  destruct (String.compare a b); split; congruence.
Qed.

Lemma str_ltb_total (a b : string) :
  String.ltb a b = false -> String.ltb b a = false -> a = b.
Proof.
  unfold String.ltb. rewrite (String.compare_antisym b a).
  destruct (String.compare a b) eqn:E; simpl; try congruence.
  intros _ _. now apply String.compare_eq_iff.
Qed.

Lemma str_ltb_negtrans (a b c : string) :
  String.ltb b a = false -> String.ltb c b = false -> String.ltb c a = false.
Proof.
  intros Hba Hcb.
  destruct (String.ltb c a) eqn:Hca; [|reflexivity].
  destruct (String.ltb a b) eqn:Hab.
  - apply str_ltb_lt in Hca, Hab.
    assert (H : String.ltb c b = true)
      by (apply str_ltb_lt; eapply String_as_OT.lt_trans; eassumption).
    congruence.
  - assert (a = b) by now apply str_ltb_total. subst. congruence.
Qed.

Lemma str_ltb_irrefl (a : string) : String.ltb a a = false.
Proof.
  destruct (String.ltb a a) eqn:E; [|reflexivity].
  now apply str_ltb_asym in E as E'; rewrite E in E'.
Qed.

Lemma key_ltb_false_iff (a b : sort_key_t) :
  key_ltb b a = false <-> key_leq a b.
Proof.
  destruct a as [[[a1 a2] a3] a4], b as [[[b1 b2] b3] b4].
  unfold key_ltb, key_leq.
  destruct (Z.ltb_spec b1 a1); simpl; [split; [discriminate | lia]|].
  destruct (Z.eqb_spec b1 a1); simpl; [|split; [intros _; lia | reflexivity]].
  destruct (Z.ltb_spec b2 a2); simpl; [split; [discriminate | lia]|].
  destruct (Z.eqb_spec b2 a2); simpl; [|split; [intros _; lia | reflexivity]].
  destruct (Z.ltb_spec b3 a3); simpl; [split; [discriminate | lia]|].
  destruct (Z.eqb_spec b3 a3); simpl; [|split; [intros _; lia | reflexivity]].
  split.
  - intros Hs. repeat (split; [lia | intros _]). exact Hs.
  - intros (_ & Hq). apply Hq; lia || (intros _; apply Hq; lia).
Qed.

Lemma key_ltb_asym (a b : sort_key_t) :
  key_ltb a b = true -> key_ltb b a = false.
Proof.
  intros H. destruct (key_ltb b a) eqn:E; [|reflexivity].
  destruct a as [[[a1 a2] a3] a4], b as [[[b1 b2] b3] b4].
  unfold key_ltb in *.
  apply orb_true_iff in H as [H|H]; apply orb_true_iff in E as [E|E];
    rewrite ?andb_true_iff in *; try lia.
  destruct H as [H1 H], E as [E1 E].
  apply orb_true_iff in H as [H|H]; apply orb_true_iff in E as [E|E];
    rewrite ?andb_true_iff in *; try lia.
  destruct H as [H2 H], E as [E2 E].
  apply orb_true_iff in H as [H|H]; apply orb_true_iff in E as [E|E];
    rewrite ?andb_true_iff in *; try lia.
  destruct H as [H3 H], E as [E3 E].
  apply str_ltb_asym in H. congruence.
Qed.

Lemma key_ltb_negtrans (a b c : sort_key_t) :
  key_ltb b a = false -> key_ltb c b = false -> key_ltb c a = false.
Proof.
  rewrite !key_ltb_false_iff.
  destruct a as [[[a1 a2] a3] a4], b as [[[b1 b2] b3] b4],
           c as [[[c1 c2] c3] c4].
  unfold key_leq. intros (H1 & H1') (K1 & K1').
  split; [lia|]. intros ->.
  assert (b1 = c1) as -> by lia.
  destruct (H1' eq_refl) as (H2 & H2'), (K1' eq_refl) as (K2 & K2').
  split; [lia|]. intros ->.
  assert (b2 = c2) as -> by lia.
  destruct (H2' eq_refl) as (H3 & H3'), (K2' eq_refl) as (K3 & K3').
  split; [lia|]. intros ->.
  assert (b3 = c3) as -> by lia.
  eapply str_ltb_negtrans; [apply H3' | apply K3']; reflexivity.
Qed.

Lemma key_ltb_total (a b : sort_key_t) :
  key_ltb a b = false -> key_ltb b a = false -> a = b.
Proof.
  rewrite !key_ltb_false_iff.
  destruct a as [[[a1 a2] a3] a4], b as [[[b1 b2] b3] b4].
  unfold key_leq. intros (H1 & H1') (K1 & K1').
  assert (a1 = b1) as -> by lia.
  destruct (H1' eq_refl) as (H2 & H2'), (K1' eq_refl) as (K2 & K2').
  assert (a2 = b2) as -> by lia.
  destruct (H2' eq_refl) as (H3 & H3'), (K2' eq_refl) as (K3 & K3').
  assert (a3 = b3) as -> by lia.
  f_equal. apply str_ltb_total; [apply H3' | apply K3']; reflexivity.
Qed.

(** ** Lists, slices and dictionaries *)

Lemma len_nonneg {A : Type} (l : list A) : 0 <= len l.
Proof. unfold len. lia. Qed.

Lemma len_app {A : Type} (l1 l2 : list A) :
  len (l1 ++ l2)%list = len l1 + len l2.
Proof. unfold len. rewrite List.length_app. lia. Qed.

Lemma len_map {A B : Type} (g : A -> B) (l : list A) : len (map g l) = len l.
Proof. unfold len. now rewrite List.length_map. Qed.

Lemma len_perm {A : Type} (l1 l2 : list A) :
  Permutation l1 l2 -> len l1 = len l2.
Proof. intros P. unfold len. now rewrite (Permutation_length P). Qed.

Lemma filter_perm {A : Type} (f : A -> bool) (l1 l2 : list A) :
  Permutation l1 l2 -> Permutation (filter f l1) (filter f l2).
Proof.
  induction 1 as [|x l1 l2 _ IH|x y l|l1 l2 l3 _ IH1 _ IH2]; simpl.
  - constructor.
  - destruct (f x); [now constructor | exact IH].
  - destruct (f x), (f y); try apply Permutation_refl. apply perm_swap.
  - eapply perm_trans; eassumption.
Qed.

Lemma filter_split_perm {A : Type} (f : A -> bool) (l : list A) :
  Permutation (filter f l ++ filter (fun x => negb (f x)) l)%list l.
Proof.
  induction l as [|x l IH]; simpl; [constructor|].
  destruct (f x); simpl.
  - now constructor.
  - eapply perm_trans; [apply Permutation_sym, Permutation_middle|].
    now constructor.
Qed.

Lemma filter_split_len {A : Type} (f : A -> bool) (l : list A) :
  len (filter f l) + len (filter (fun x => negb (f x)) l) = len l.
Proof. rewrite <- len_app. apply len_perm, filter_split_perm. Qed.

(** A slice bound at or beyond the length keeps the whole list. *)
Lemma slice_to_all {A : Type} (k : Z) (l : list A) :
  len l <= k -> slice_to k l = l.
Proof.
  intros H. unfold slice_to. pose proof (len_nonneg l).
  destruct (Z.ltb_spec k 0); [lia|].
  apply firstn_all2. unfold len in *. lia.
Qed.

(** A non-negative slice bound below the length keeps that many items. *)
Lemma slice_to_len {A : Type} (k : Z) (l : list A) :
  0 <= k <= len l -> len (slice_to k l) = k.
Proof.
  intros H. unfold slice_to.
  destruct (Z.ltb_spec k 0); [lia|].
  unfold len in *. rewrite List.length_firstn. lia.
Qed.

Lemma firstn_In {A : Type} (n : nat) (l : list A) (x : A) :
  In x (firstn n l) -> In x l.
Proof.
  intros H. rewrite <- (firstn_skipn n l). apply in_or_app. now left.
Qed.

Lemma slice_to_incl {A : Type} (k : Z) (l : list A) (x : A) :
  In x (slice_to k l) -> In x l.
Proof.
  unfold slice_to. destruct (k <? 0); apply firstn_In.
Qed.

Lemma enumerate_snd {A : Type} (start : Z) (l : list A) :
  map snd (enumerate start l) = l.
Proof.
  revert start. induction l as [|x l IH]; intros start; simpl;
    [reflexivity | now rewrite IH].
Qed.

Lemma dict_get_set_same (k : string) (v : Z) (d : dict) :
  dict_get k (dict_set k v d) = Some v.
Proof.
  induction d as [|[k' v'] d IH]; simpl.
  - now rewrite String.eqb_refl.
  - destruct (String.eqb k k') eqn:E; simpl; rewrite ?String.eqb_refl, ?E; auto.
Qed.

Lemma dict_get_set_other (k k' : string) (v : Z) (d : dict) :
  k <> k' -> dict_get k (dict_set k' v d) = dict_get k d.
Proof.
  intros Hne. induction d as [|[k2 v2] d IH]; simpl.
  - apply String.eqb_neq in Hne. now rewrite Hne.
  - destruct (String.eqb k' k2) eqn:E; simpl.
    + apply String.eqb_eq in E. subst k2.
      apply String.eqb_neq in Hne. now rewrite Hne.
    + now rewrite IH.
Qed.

Lemma dict_set_keys (k : string) (v : Z) (d : dict) :
  dict_keys (dict_set k v d) =
  if str_in k (dict_keys d) then dict_keys d else (dict_keys d ++ [k])%list.
Proof.
  induction d as [|[k' v'] d IH]; simpl; [reflexivity|].
  destruct (String.eqb k k') eqn:E; simpl.
  - apply String.eqb_eq in E. now subst.
  - unfold dict_keys in *. rewrite IH. now destruct (str_in k (map fst d)).
Qed.

Lemma str_in_In (x : string) (l : list string) :
  str_in x l = true <-> In x l.
Proof.
  induction l as [|y l IH]; simpl; [split; [discriminate | tauto]|].
  rewrite orb_true_iff, String.eqb_eq, IH. split; intros [H|H]; auto.
Qed.

Lemma dict_set_keys_NoDup (k : string) (v : Z) (d : dict) :
  NoDup (dict_keys d) -> NoDup (dict_keys (dict_set k v d)).
Proof.
  intros H. rewrite dict_set_keys.
  destruct (str_in k (dict_keys d)) eqn:E; [exact H|].
  apply NoDup_app; [exact H | repeat constructor; intros [] |].
  intros x Hx [<-|[]]. apply str_in_In in Hx. congruence.
Qed.

Section TagLoop.
Variable m : dict.

Lemma tag_loop_get (k : string) (tag_list : list string) (acc : dict) :
  dict_get k (fold_left (tag_step m) tag_list acc) =
  if str_in k tag_list && dict_mem k m then dict_get k m
  else dict_get k acc.
Proof.
  revert acc. induction tag_list as [|t tag_list IH]; intros acc; simpl.
  - reflexivity.
  - rewrite IH.
    destruct (str_in k tag_list) eqn:S, (dict_mem k m) eqn:M;
      rewrite ?orb_true_r, ?andb_false_r; simpl; try reflexivity.
    + unfold tag_step.
      destruct (String.eqb_spec k t) as [->|Hne]; simpl;
        [now rewrite M|].
      destruct (dict_mem t m); [now apply dict_get_set_other | reflexivity].
    + destruct (String.eqb_spec k t) as [->|Hne]; simpl.
      * unfold tag_step, dict_get_default. rewrite M.
        unfold dict_mem in M. rewrite dict_get_set_same.
        now destruct (dict_get t m).
      * unfold tag_step.
        destruct (dict_mem t m); [now apply dict_get_set_other | reflexivity].
    + unfold tag_step.
      destruct (String.eqb_spec k t) as [->|Hne]; simpl;
        [now rewrite M|].
      destruct (dict_mem t m); [now apply dict_get_set_other | reflexivity].
Qed.

Lemma tag_loop_NoDup (tag_list : list string) (acc : dict) :
  NoDup (dict_keys acc) ->
  NoDup (dict_keys (fold_left (tag_step m) tag_list acc)).
Proof.
  revert acc. induction tag_list as [|t tag_list IH]; intros acc H; simpl.
  - exact H.
  - apply IH. unfold tag_step.
    destruct (dict_mem t m); [now apply dict_set_keys_NoDup | exact H].
Qed.
End TagLoop.

(* ================================================================== *)
(** ** Scoring *)

(** The events of the highlights built from a ranked list are the events of
    that list, in order. *)
Lemma highlights_events {A : Type} (mk : Z * scored -> A)
    (proj : A -> GameEvent) (l : list scored) :
  (forall r ev b, proj (mk (r, (ev, b))) = ev) ->
  map proj (map mk (enumerate 1 l)) = map fst l.
Proof.
  intros Hmk. rewrite <- (enumerate_snd 1 l) at 2.
  rewrite !map_map. apply map_ext. intros [r [ev b]]. apply Hmk.
Qed.

Lemma track1_lookup_as_specified (k : string) :
  dict_get k Track1.CONTEXT_BOOST_MAP = dict_get k spec_boost_lookup.
Proof.
  unfold Track1.CONTEXT_BOOST_MAP, spec_boost_lookup. simpl.
  destruct (String.eqb_spec k "clutch") as [->|]; [reflexivity|].
  destruct (String.eqb_spec k "highlight_reel") as [->|]; [reflexivity|].
  destruct (String.eqb_spec k "game_winner") as [->|]; [reflexivity|].
  destruct (String.eqb_spec k "buzzer_beater") as [->|]; reflexivity.
Qed.

Lemma tag_loop_entries (table : dict) (ev : GameEvent) :
  tag_entries table ev (fold_left (tag_step table) (tags ev) []).
Proof.
  split.
  - apply tag_loop_NoDup. constructor.
  - intros k v. rewrite tag_loop_get. simpl.
    destruct (str_in k (tags ev)) eqn:S; simpl.
    + apply str_in_In in S. unfold dict_mem.
      destruct (dict_get k table); split; try tauto; discriminate.
    + split; [discriminate|]. intros [H _].
      apply str_in_In in H. congruence.
Qed.

(** C5 (as amended).  Track 1: [context_boosts] holds exactly one entry per
    event tag found in {clutch:20, game_winner:25, buzzer_beater:20,
    highlight_reel:15}, and ["fourth_quarter"] = 10 if and only if the quarter
    is exactly 4.  Track 2: [context_boosts] holds exactly one entry per event
    tag found in {clutch:20, game_winner:25, buzzer_beater:15,
    highlight_reel:15, fourth_quarter:10}; the quarter plays no part. *)
Theorem C5_context_boosts_per_track :
  (forall ev prefs,
      context_boosts_as_specified ev
        (context_boosts (Track1.score_event ev prefs))) /\
  (forall ev preference,
      tag_entries Track2.tag_boost_map ev
        (context_boosts (Track2.calculate_score ev preference))).
Proof.
  split.
  - intros ev prefs.
    pose proof (tag_loop_entries Track1.CONTEXT_BOOST_MAP ev) as [ND G].
    change (fold_left (tag_step Track1.CONTEXT_BOOST_MAP) (tags ev) [])
      with (Track1.tag_boosts (tags ev)) in ND, G.
    assert (Hfq : dict_get "fourth_quarter" (Track1.tag_boosts (tags ev)) = None).
    { destruct (dict_get "fourth_quarter" (Track1.tag_boosts (tags ev)))
        as [v|] eqn:E; [|reflexivity].
      apply G in E as [_ E]. discriminate E. }
    change (context_boosts (Track1.score_event ev prefs))
      with (if quarter ev =? 4
            then dict_set "fourth_quarter" Track1.FOURTH_QUARTER_BOOST
                   (Track1.tag_boosts (tags ev))
            else Track1.tag_boosts (tags ev)).
    destruct (Z.eqb_spec (quarter ev) 4) as [Hq|Hq]; split.
    + now apply dict_set_keys_NoDup.
    + intros k v. destruct (String.eqb_spec k "fourth_quarter") as [->|Hk].
      * rewrite dict_get_set_same. unfold Track1.FOURTH_QUARTER_BOOST.
        split.
        -- intros [= <-]. right. auto.
        -- intros [[_ H]|(_ & -> & _)]; [discriminate H | reflexivity].
      * rewrite dict_get_set_other by exact Hk.
        rewrite G, track1_lookup_as_specified. split; [tauto|].
        intros [H|(H & _)]; [exact H | contradiction].
    + exact ND.
    + intros k v. rewrite G, track1_lookup_as_specified. split; [tauto|].
      intros [H|(_ & _ & H)]; [exact H | contradiction].
  - intros ev preference. apply (tag_loop_entries Track2.tag_boost_map ev).
Qed.

(** C5, the claim as stated, fails on track 2: a buzzer-beater in quarter 4
    gets the single entry buzzer_beater = 15 and no ["fourth_quarter"]. *)
Lemma C5_counterexample :
  let ev := mkGameEvent "e1" "shot" "Q4 00:01" 4 "P" "T" ""
                        "high" ["buzzer_beater"] in
  context_boosts (Track2.calculate_score ev None) = [("buzzer_beater", 15)] /\
  ~ context_boosts_as_specified ev
      (context_boosts (Track2.calculate_score ev None)).
Proof.
  split; [reflexivity|].
  intros [_ H]. specialize (H "fourth_quarter" 10).
  destruct H as [_ H]. discriminate H. right. auto.
Qed.

(* ================================================================== *)
(** ** The favorite-player rule of track 2 *)

Lemma favorite_rule_perm (scored_events : list scored) (fav : string) :
  Permutation (Track2._apply_favorite_player_rule scored_events fav)
              scored_events.
Proof.
  unfold Track2._apply_favorite_player_rule.
  set (favs := filter (Track2.has_player fav) scored_events).
  set (others :=
         filter (fun x => negb (Track2.has_player fav x)) scored_events).
  destruct (len favs <? 3); [apply Permutation_refl|].
  destruct (Z.geb_spec (len favs) ((len scored_events + 1) / 2)) as [Hge|Hlt];
    [apply Permutation_refl|].
  pose proof (filter_split_len (Track2.has_player fav) scored_events) as Hlen.
  fold favs others in Hlen.
  rewrite (slice_to_all ((len scored_events + 1) / 2) favs) by lia.
  rewrite (slice_to_all (len scored_events - len favs) others) by lia.
  eapply perm_trans; [apply sorted_perm|].
  apply filter_split_perm.
Qed.

(** C10. For every selection and favorite-player name,
    [_apply_favorite_player_rule] returns the same (event, breakdown) pairs
    as it was given, each as often, possibly in another order: the supply of
    favorite-player events is taken from the selection itself, so no event
    from outside the selection is ever added. *)
Theorem C10_favorite_rule_keeps_selection :
  forall (scored_events : list scored) (favorite_player : string),
    Permutation
      (Track2._apply_favorite_player_rule scored_events favorite_player)
      scored_events /\
    (forall x,
        In x (Track2._apply_favorite_player_rule scored_events favorite_player)
        <-> In x scored_events).
Proof.
  intros sel fav. pose proof (favorite_rule_perm sel fav) as P.
  split; [exact P|].
  intros x. split; apply Permutation_in;
    [exact P | apply Permutation_sym, P].
Qed.

(* ================================================================== *)
(** ** Selection *)

Lemma filter_scored (f : GameEvent -> ScoreBreakdown) (p : GameEvent -> bool)
    (events : list GameEvent) :
  filter (fun item : scored => p (fst item)) (map (fun ev => (ev, f ev)) events)
  = map (fun ev => (ev, f ev)) (filter p events).
Proof.
  induction events as [|ev events IH]; simpl; [reflexivity|].
  destruct (p ev); simpl; now rewrite IH.
Qed.

Lemma len_critical_scored {K : Type} (f : GameEvent -> ScoreBreakdown)
    (ltb : K -> K -> bool) (key : scored -> K) (events : list GameEvent) :
  len (filter is_critical
         (sorted ltb key (map (fun ev => (ev, f ev)) events)))
  = len (critical_of events).
Proof.
  rewrite (len_perm _ _ (filter_perm is_critical _ _ (sorted_perm ltb key _))).
  change is_critical with (fun item : scored => critical_event (fst item)).
  rewrite filter_scored. apply len_map.
Qed.

Lemma len_non_critical_scored {K : Type} (f : GameEvent -> ScoreBreakdown)
    (ltb : K -> K -> bool) (key : scored -> K) (events : list GameEvent) :
  len (filter (fun item => negb (is_critical item))
         (sorted ltb key (map (fun ev => (ev, f ev)) events)))
  = len (non_critical_of events).
Proof.
  rewrite (len_perm _ _ (filter_perm _ _ _ (sorted_perm ltb key _))).
  change (fun item => negb (is_critical item))
    with (fun item : scored => negb (critical_event (fst item))).
  rewrite (filter_scored f (fun ev => negb (critical_event ev))).
  apply len_map.
Qed.

Lemma len_critical_split (events : list GameEvent) :
  len (critical_of events) + len (non_critical_of events) = len events.
Proof. apply filter_split_len. Qed.

(** *** Track 1 *)

Lemma t1_rank_and_filter_eq (scored_events : list scored) (mn mx : Z) :
  Track1.rank_and_filter scored_events mn mx =
  let sorted_events := sorted key_ltb Track1.sort_key scored_events in
  sorted key_ltb Track1.sort_key
    (Track1.fill mx (t1_kept_critical mx sorted_events)
       (filter (fun item => negb (is_critical item)) sorted_events)).
Proof.
  destruct scored_events as [|x l]; [|reflexivity].
  unfold t1_kept_critical, slice_to. simpl.
  destruct (len [] >? mx), (mx <? 0); now rewrite ?firstn_nil.
Qed.

Lemma t1_select_highlights_eq events prefs mn mx :
  Track1.select_highlights events prefs mn mx =
  map t1_highlight
    (enumerate 1
       (Track1.rank_and_filter
          (map (fun ev => (ev, t1_score prefs ev)) events) mn mx)).
Proof.
  destruct events as [|ev events]; [reflexivity|].
  unfold Track1.select_highlights, t1_score, t1_prefs.
  apply map_ext. now intros [r [e b]].
Qed.

Lemma t1_fill_done (mx : Z) (result rest : list scored) :
  mx <= len result -> Track1.fill mx result rest = result.
Proof.
  intros H. destruct rest as [|x rest]; simpl; [reflexivity|].
  destruct (Z.geb_spec (len result) mx); [reflexivity | lia].
Qed.

Lemma t1_fill_len (mx : Z) (rest result : list scored) :
  len result <= mx ->
  len (Track1.fill mx result rest) = Z.min (len result + len rest) mx.
Proof.
  revert result. induction rest as [|x rest IH]; intros result H; simpl.
  - unfold len in *. simpl. lia.
  - destruct (Z.geb_spec (len result) mx) as [Hge|Hlt].
    + pose proof (len_nonneg (x :: rest)). lia.
    + rewrite IH; rewrite len_app; unfold len in *; simpl List.length; lia.
Qed.

Lemma t1_fill_keeps (mx : Z) (rest result : list scored) (x : scored) :
  In x result -> In x (Track1.fill mx result rest).
Proof.
  revert result. induction rest as [|y rest IH]; intros result H; simpl.
  - exact H.
  - destruct (len result >=? mx); [exact H|].
    apply IH, in_or_app. now left.
Qed.

Lemma t1_fill_incl (mx : Z) (rest result : list scored) (x : scored) :
  In x (Track1.fill mx result rest) -> In x result \/ In x rest.
Proof.
  revert result. induction rest as [|y rest IH]; intros result H; simpl in *.
  - now left.
  - destruct (len result >=? mx); [now left|].
    apply IH in H as [H|H]; [|now right; right].
    apply in_app_or in H as [H|[<-|[]]]; [now left | now right; left].
Qed.

Lemma t1_kept_critical_len (mx : Z) (l : list scored) :
  0 <= mx ->
  len (t1_kept_critical mx l) = Z.min (len (filter is_critical l)) mx.
Proof.
  intros H. unfold t1_kept_critical.
  destruct (Z.gtb_spec (len (filter is_critical l)) mx); [|lia].
  rewrite slice_to_len; lia.
Qed.

(** With a non-negative [max_count], track 1 returns
    [min(len(events), max_count)] items. *)
Lemma t1_rank_and_filter_len (scored_events : list scored) (mn mx : Z) :
  0 <= mx ->
  len (Track1.rank_and_filter scored_events mn mx)
  = Z.min (len scored_events) mx.
Proof.
  intros H. rewrite t1_rank_and_filter_eq. cbv zeta.
  set (s := sorted key_ltb Track1.sort_key scored_events).
  rewrite (len_perm _ _ (sorted_perm _ _ _)).
  pose proof (t1_kept_critical_len mx s H) as Hc.
  pose proof (filter_split_len is_critical s) as Hs.
  rewrite (len_perm s scored_events) in Hs by apply sorted_perm.
  pose proof (len_nonneg (filter (fun x => negb (is_critical x)) s)).
  rewrite t1_fill_len by lia. lia.
Qed.

Lemma t1_select_highlights_len events prefs mn mx :
  0 <= mx ->
  len (Track1.select_highlights events prefs mn mx) = Z.min (len events) mx.
Proof.
  intros H. rewrite t1_select_highlights_eq, len_map.
  rewrite <- (len_map snd), enumerate_snd.
  rewrite t1_rank_and_filter_len by exact H. now rewrite len_map.
Qed.

Lemma t1_select_highlights_events events prefs mn mx :
  map event (Track1.select_highlights events prefs mn mx) =
  map fst (Track1.rank_and_filter
             (map (fun ev => (ev, t1_score prefs ev)) events) mn mx).
Proof.
  rewrite t1_select_highlights_eq. apply highlights_events.
  reflexivity.
Qed.

(** *** Track 2 *)

Lemma t2_quota_perm preference (selected : list scored) :
  Permutation (t2_quota preference selected) selected.
Proof.
  unfold t2_quota. destruct preference as [[[fp|] ft]|]; simpl;
    try apply Permutation_refl.
  destruct (str_truthy fp);
    [apply favorite_rule_perm | apply Permutation_refl].
Qed.

Lemma t2_select_highlights_eq events preference mn mx :
  Track2.select_highlights events preference mn mx =
  map (t2_highlight preference)
    (enumerate 1 (t2_selection events preference mn mx)).
Proof.
  destruct events as [|ev events].
  - assert (H : t2_selection [] preference mn mx = []).
    { apply Permutation_nil. unfold t2_selection.
      eapply perm_trans; [|apply Permutation_sym, t2_quota_perm].
      unfold t2_pick, slice_to. simpl.
      destruct (len (@nil scored) <=? mn), (len (@nil scored) <=? mx),
        (mx <? 0);
        rewrite ?firstn_nil; constructor. }
    now rewrite H.
  - unfold Track2.select_highlights, t2_selection, t2_quota, t2_pick.
    apply map_ext. now intros [r [e b]].
Qed.

Lemma t2_selection_len events preference mn mx :
  len (t2_selection events preference mn mx) =
  len (critical_of events)
  + len (t2_pick mn mx
           (filter (fun x => negb (is_critical x))
              (sorted key_ltb Track2.sort_key
                 (map (fun ev => (ev, Track2.calculate_score ev preference))
                      events)))).
Proof.
  unfold t2_selection. cbv zeta.
  rewrite (len_perm _ _ (t2_quota_perm _ _)), len_app.
  now rewrite (len_critical_scored
                 (fun ev => Track2.calculate_score ev preference)).
Qed.

Lemma t2_select_highlights_len events preference mn mx :
  len (Track2.select_highlights events preference mn mx) =
  len (t2_selection events preference mn mx).
Proof.
  rewrite t2_select_highlights_eq, len_map.
  now rewrite <- (len_map snd), enumerate_snd.
Qed.

(** Track 2 returns every event when the non-critical ones fit one of the
    two bounds. *)
Lemma t2_len_all events preference mn mx :
  len (non_critical_of events) <= Z.max mn mx ->
  len (Track2.select_highlights events preference mn mx) = len events.
Proof.
  intros H. rewrite t2_select_highlights_len, t2_selection_len.
  rewrite <- (len_critical_split events). f_equal.
  rewrite <- (len_non_critical_scored
                (fun ev => Track2.calculate_score ev preference)
                key_ltb Track2.sort_key) in H |- *.
  unfold t2_pick.
  repeat match goal with |- context [?a <=? ?b] =>
    destruct (Z.leb_spec a b) end; try reflexivity; lia.
Qed.

(** Otherwise it returns all critical events and [max_count] others. *)
Lemma t2_len_capped events preference mn mx :
  0 <= mx -> mn < len (non_critical_of events) ->
  mx < len (non_critical_of events) ->
  len (Track2.select_highlights events preference mn mx)
  = len (critical_of events) + mx.
Proof.
  intros H0 H1 H2. rewrite t2_select_highlights_len, t2_selection_len.
  f_equal.
  rewrite <- (len_non_critical_scored
                (fun ev => Track2.calculate_score ev preference)
                key_ltb Track2.sort_key) in H1, H2.
  unfold t2_pick.
  repeat match goal with |- context [?a <=? ?b] =>
    destruct (Z.leb_spec a b) end; try lia.
  apply slice_to_len. lia.
Qed.




(** *** Critical events *)

Lemma critical_event_iff (ev : GameEvent) :
  critical_event ev = true <-> importance ev = "critical".
Proof. apply String.eqb_eq. Qed.

Lemma t1_critical_kept events prefs mn mx ev :
  len (critical_of events) <= mx ->
  In ev events -> critical_event ev = true ->
  In ev (map event (Track1.select_highlights events prefs mn mx)).
Proof.
  intros Hc Hin Hcrit. rewrite t1_select_highlights_events.
  apply in_map_iff. exists (ev, t1_score prefs ev). split; [reflexivity|].
  rewrite t1_rank_and_filter_eq. cbv zeta.
  apply sorted_In, t1_fill_keeps. unfold t1_kept_critical.
  rewrite (len_critical_scored (t1_score prefs)).
  destruct (Z.gtb_spec (len (critical_of events)) mx); [lia|].
  apply filter_In. split; [|exact Hcrit].
  apply sorted_In. now apply (in_map (fun e => (e, t1_score prefs e))).
Qed.

Lemma t1_over_cap_all_critical events prefs mn mx h :
  0 <= mx < len (critical_of events) ->
  In h (Track1.select_highlights events prefs mn mx) ->
  importance (event h) = "critical".
Proof.
  intros Hc Hin. apply critical_event_iff.
  apply (in_map event) in Hin. rewrite t1_select_highlights_events in Hin.
  apply in_map_iff in Hin as (x & <- & Hx).
  rewrite t1_rank_and_filter_eq in Hx. cbv zeta in Hx.
  apply sorted_In in Hx.
  rewrite t1_fill_done in Hx.
  - unfold t1_kept_critical in Hx.
    rewrite (len_critical_scored (t1_score prefs)) in Hx.
    destruct (Z.gtb_spec (len (critical_of events)) mx); [|lia].
    apply slice_to_incl, filter_In in Hx. apply Hx.
  - rewrite t1_kept_critical_len by lia.
    rewrite (len_critical_scored (t1_score prefs)). lia.
Qed.

Lemma t2_select_highlights_events events preference mn mx :
  map event (Track2.select_highlights events preference mn mx) =
  map fst (t2_selection events preference mn mx).
Proof.
  rewrite t2_select_highlights_eq. apply highlights_events. reflexivity.
Qed.

Lemma t2_critical_kept events preference mn mx ev :
  In ev events -> critical_event ev = true ->
  In ev (map event (Track2.select_highlights events preference mn mx)).
Proof.
  intros Hin Hcrit. rewrite t2_select_highlights_events.
  apply in_map_iff. exists (ev, Track2.calculate_score ev preference).
  split; [reflexivity|]. unfold t2_selection. cbv zeta.
  eapply Permutation_in; [apply Permutation_sym, t2_quota_perm|].
  apply in_or_app. left. apply filter_In. split; [|exact Hcrit].
  apply sorted_In.
  now apply (in_map (fun e => (e, Track2.calculate_score e preference))).
Qed.

(** Where the critical events go.  For every input and every event of it
    whose importance is "critical": on track 2 the event is in the output,
    however many critical events there are; on track 1 it is in the output
    when the critical events number at most [max_count]; when they number
    more than a non-negative [max_count], track 1 returns exactly
    [max_count] events, all of them critical, so it leaves critical events
    out. *)
Theorem critical_events_kept_up_to_cap :
  forall (events : list GameEvent) (prefs : option UserPreference)
         (min_count max_count : Z) (ev : GameEvent),
    In ev events -> importance ev = "critical" ->
    In ev (map event
             (Track2.select_highlights events prefs min_count max_count)) /\
    (len (critical_of events) <= max_count ->
     In ev (map event
              (Track1.select_highlights events prefs min_count max_count))) /\
    (0 <= max_count < len (critical_of events) ->
     len (Track1.select_highlights events prefs min_count max_count)
     = max_count /\
     forall h,
       In h (Track1.select_highlights events prefs min_count max_count) ->
       importance (event h) = "critical").
Proof.
  intros events prefs mn mx ev Hin Hcrit.
  apply critical_event_iff in Hcrit.
  split; [now apply t2_critical_kept|].
  split; [intros Hc; now apply t1_critical_kept|].
  intros Hc. split.
  - pose proof (len_critical_split events).
    pose proof (len_nonneg (non_critical_of events)).
    rewrite t1_select_highlights_len; lia.
  - intros h. now apply t1_over_cap_all_critical.
Qed.

(** Two critical events under the default bounds: the second one is in the
    output of both tracks. *)
Lemma critical_events_kept_up_to_cap_witness :
  In (plain_event "b" "critical")
     (map event (Track2.select_highlights two_critical None 5 8)) /\
  In (plain_event "b" "critical")
     (map event (Track1.select_highlights two_critical None 5 8)).
Proof.
  destruct (critical_events_kept_up_to_cap two_critical None 5 8
              (plain_event "b" "critical")) as (H2 & H1 & _).
  - simpl. auto.
  - reflexivity.
  - split; [exact H2 | apply H1; vm_compute; discriminate].
Defined.

(** C1, on track 1: of nine critical events under the default bounds
    ([min_count = 5], [max_count = 8]) the ninth is an input event of
    importance "critical" and is not in the output, which holds the first
    eight; track 2 returns all nine. *)
Theorem C1_track1_drops_critical_events :
  In (plain_event "c8" "critical") nine_critical /\
  importance (plain_event "c8" "critical") = "critical" /\
  map (fun h => id (event h)) (Track1.select_highlights nine_critical None 5 8)
  = ["c0"; "c1"; "c2"; "c3"; "c4"; "c5"; "c6"; "c7"] /\
  ~ In (plain_event "c8" "critical")
       (map event (Track1.select_highlights nine_critical None 5 8)) /\
  map (fun h => id (event h)) (Track2.select_highlights nine_critical None 5 8)
  = ["c0"; "c1"; "c2"; "c3"; "c4"; "c5"; "c6"; "c7"; "c8"].
Proof.
  split; [simpl; tauto|]. split; [reflexivity|]. split; [reflexivity|].
  split; [|reflexivity].
  intros H. apply (in_map id) in H. rewrite map_map in H.
  vm_compute in H. intuition discriminate.
Qed.

(** *** The [min_count] parameter *)

Lemma t2_pick_min_count (m1 m2 mx : Z) (l : list scored) :
  m1 <= mx -> m2 <= mx -> t2_pick m1 mx l = t2_pick m2 mx l.
Proof.
  intros H1 H2. unfold t2_pick.
  repeat match goal with |- context [?a <=? ?b] =>
    destruct (Z.leb_spec a b) end; try reflexivity; lia.
Qed.

(** C9 (as amended).  On track 1 [min_count] has no effect on the output.
    On track 2 two values of [min_count] give the same output when neither
    exceeds [max_count]. *)
Theorem C9_min_count_effect :
  forall (events : list GameEvent) (prefs : option UserPreference)
         (m1 m2 max_count : Z),
    Track1.select_highlights events prefs m1 max_count
    = Track1.select_highlights events prefs m2 max_count /\
    (m1 <= max_count -> m2 <= max_count ->
     Track2.select_highlights events prefs m1 max_count
     = Track2.select_highlights events prefs m2 max_count).
Proof.
  intros events prefs m1 m2 mx. split.
  - destruct events; reflexivity.
  - intros H1 H2. rewrite !t2_select_highlights_eq. unfold t2_selection.
    cbv zeta. now rewrite (t2_pick_min_count m1 m2 mx).
Qed.

(** C9 on track 2 at three medium events, [max_count = 2] and
    [min_count] 1 or 2. *)
Lemma C9_witness :
  Track2.select_highlights three_medium None 1 2
  = Track2.select_highlights three_medium None 2 2.
Proof.
  apply (C9_min_count_effect three_medium None 1 2 2); vm_compute; discriminate.
Defined.

(** C9, the claim as stated, fails on track 2: with three medium events and
    [max_count = 1], [min_count = 1] returns one highlight and
    [min_count = 5] returns all three. *)
Lemma C9_counterexample :
  map (fun h => id (event h)) (Track2.select_highlights three_medium None 1 1)
  = ["a"] /\
  map (fun h => id (event h)) (Track2.select_highlights three_medium None 5 1)
  = ["a"; "b"; "c"] /\
  Track2.select_highlights three_medium None 1 1
  <> Track2.select_highlights three_medium None 5 1.
Proof.
  split; [reflexivity|]. split; [reflexivity|].
  intros H. apply (f_equal (@List.length Highlight)) in H.
  vm_compute in H. discriminate H.
Qed.

(* ================================================================== *)
(** ** Order of the input *)

Lemma NoDup_map_eq {A B : Type} (g : A -> B) (l : list A) (a b : A) :
  NoDup (map g l) -> In a l -> In b l -> g a = g b -> a = b.
Proof.
  induction l as [|x l IH]; simpl; intros ND Ha Hb E; [contradiction|].
  inversion ND as [|? ? Hx ND']; subst.
  destruct Ha as [->|Ha], Hb as [->|Hb]; auto.
  - exfalso. apply Hx. rewrite E. now apply in_map.
  - exfalso. apply Hx. rewrite <- E. now apply in_map.
Qed.

(** With pairwise distinct ids, two scored events with interchangeable
    sort keys are the same. *)
Lemma scored_key_antisym (f : GameEvent -> ScoreBreakdown)
    (key : scored -> sort_key_t) (events : list GameEvent) :
  (forall x, snd (key x) = id (fst x)) ->
  NoDup (map id events) ->
  forall x y,
    In x (map (fun ev => (ev, f ev)) events) ->
    In y (map (fun ev => (ev, f ev)) events) ->
    key_le key_ltb key x y -> key_le key_ltb key y x -> x = y.
Proof.
  intros Hkey ND x y Hx Hy Hxy Hyx. unfold key_le in *.
  pose proof (key_ltb_total _ _ Hyx Hxy) as E.
  apply in_map_iff in Hx as (ex & <- & Hex).
  apply in_map_iff in Hy as (ey & <- & Hey).
  assert (ex = ey) as ->; [|reflexivity].
  apply (NoDup_map_eq id events); auto.
  apply (f_equal snd) in E. now rewrite !Hkey in E.
Qed.

Lemma sorted_scored_perm (f : GameEvent -> ScoreBreakdown)
    (key : scored -> sort_key_t) (events events' : list GameEvent) :
  (forall x, snd (key x) = id (fst x)) ->
  NoDup (map id events) -> Permutation events events' ->
  sorted key_ltb key (map (fun ev => (ev, f ev)) events)
  = sorted key_ltb key (map (fun ev => (ev, f ev)) events').
Proof.
  intros Hkey ND P. apply sorted_permutation_eq.
  - apply key_ltb_asym.
  - apply key_ltb_negtrans.
  - now apply scored_key_antisym.
  - now apply Permutation_map.
Qed.

(** C8 (as amended).  Both [select_highlights] are functions of their
    arguments, so equal inputs give equal outputs; and for an input whose
    event ids are pairwise distinct, any permutation of the input events
    gives the same ordered output on both tracks: same events, ranks, scores
    and explanations. *)
Theorem C8_output_independent_of_input_order :
  forall (events events' : list GameEvent) (prefs : option UserPreference)
         (min_count max_count : Z),
    NoDup (map id events) ->
    Permutation events events' ->
    Track1.select_highlights events prefs min_count max_count
    = Track1.select_highlights events' prefs min_count max_count /\
    Track2.select_highlights events prefs min_count max_count
    = Track2.select_highlights events' prefs min_count max_count.
Proof.
  intros events events' prefs mn mx ND P. split.
  - rewrite !t1_select_highlights_eq, !t1_rank_and_filter_eq. cbv zeta.
    rewrite (sorted_scored_perm (t1_score prefs) Track1.sort_key
               events events'); auto.
    now intros [ev b].
  - rewrite !t2_select_highlights_eq. unfold t2_selection. cbv zeta.
    rewrite (sorted_scored_perm
               (fun ev => Track2.calculate_score ev prefs) Track2.sort_key
               events events'); auto.
Qed.

(** C8 at a medium and a critical event, in both orders. *)
Lemma C8_witness :
  Track1.select_highlights
    [plain_event "a" "medium"; plain_event "b" "critical"] None 5 8
  = Track1.select_highlights
      [plain_event "b" "critical"; plain_event "a" "medium"] None 5 8 /\
  Track2.select_highlights
    [plain_event "a" "medium"; plain_event "b" "critical"] None 5 8
  = Track2.select_highlights
      [plain_event "b" "critical"; plain_event "a" "medium"] None 5 8.
Proof.
  apply C8_output_independent_of_input_order.
  - simpl. repeat constructor; simpl; intuition discriminate.
  - apply perm_swap.
Defined.

(** C8, the claim as stated, fails on both tracks for events that share an
    id: the sort is stable, so two different events with the same id, score,
    quarter and importance keep their input order, and the two orders of the
    same input give different outputs. *)
Lemma C8_counterexample :
  Permutation [shared_id_first; shared_id_second]
              [shared_id_second; shared_id_first] /\
  map (fun h => description (event h))
      (Track1.select_highlights [shared_id_first; shared_id_second] None 5 8)
  = ["first"; "second"] /\
  map (fun h => description (event h))
      (Track1.select_highlights [shared_id_second; shared_id_first] None 5 8)
  = ["second"; "first"] /\
  map (fun h => description (event h))
      (Track2.select_highlights [shared_id_first; shared_id_second] None 5 8)
  = ["first"; "second"] /\
  map (fun h => description (event h))
      (Track2.select_highlights [shared_id_second; shared_id_first] None 5 8)
  = ["second"; "first"] /\
  Track1.select_highlights [shared_id_first; shared_id_second] None 5 8
  <> Track1.select_highlights [shared_id_second; shared_id_first] None 5 8 /\
  Track2.select_highlights [shared_id_first; shared_id_second] None 5 8
  <> Track2.select_highlights [shared_id_second; shared_id_first] None 5 8.
Proof.
  split; [apply perm_swap|]. repeat (split; [reflexivity|]).
  split; intros H;
    apply (f_equal (map (fun h => description (event h)))) in H;
    vm_compute in H; discriminate H.
Qed.

(* ================================================================== *)
(** ** Order of the output *)

Lemma str_ltb_false_leb (a b : string) :
  String.ltb b a = false -> String.leb a b = true.
Proof.
  unfold String.ltb, String.leb. rewrite (String.compare_antisym a b).
  destruct (String.compare b a); simpl; congruence.
Qed.

Lemma StronglySorted_enumerate {A B : Type} (R : A -> A -> Prop)
    (R' : B -> B -> Prop) (mk : Z * A -> B) (l : list A) :
  (forall i j x y, R x y -> R' (mk (i, x)) (mk (j, y))) ->
  StronglySorted R l ->
  forall start, StronglySorted R' (map mk (enumerate start l)).
Proof.
  intros Hmk. induction 1 as [|x l Hl IH Hx]; intros start; simpl.
  - constructor.
  - constructor; [apply IH|].
    clear IH Hl. generalize (start + 1). induction l as [|y l IHl];
      intros n; simpl; constructor.
    + apply Hmk. now inversion Hx.
    + apply IHl. now inversion Hx.
Qed.

(** The output of track 1 is sorted by the comparator: the final statement
    of [rank_and_filter] sorts the result again. *)
Lemma t1_output_sorted events prefs mn mx :
  StronglySorted ranked_before
    (Track1.select_highlights events prefs mn mx).
Proof.
  rewrite t1_select_highlights_eq, t1_rank_and_filter_eq. cbv zeta.
  apply (StronglySorted_enumerate (key_le key_ltb Track1.sort_key)).
  - intros i j [e1 b1] [e2 b2] H. unfold key_le in H.
    apply key_ltb_false_iff in H. unfold Track1.sort_key, key_leq in H.
    destruct H as (H1 & H2). unfold ranked_before. simpl.
    split; [lia|]. intros E1. destruct H2 as (H2 & H3); [lia|].
    split; [lia|]. intros E2. destruct H3 as (H3 & H4); [lia|].
    split; [lia|]. intros E3. apply str_ltb_false_leb, H4. lia.
  - apply sorted_StronglySorted.
    + apply key_ltb_asym.
    + apply key_ltb_negtrans.
Qed.

(** C4, on track 2: the critical event with score 100 is returned in front
    of the high event with score 120, so the output is not sorted by the
    comparator; track 1 returns them in comparator order. *)
Theorem C4_track2_output_not_sorted :
  map (fun h => (id (event h), rank h, score h))
      (Track2.select_highlights critical_then_boosted_high None 5 8)
  = [("c", 1, 100); ("h", 2, 120)] /\
  ~ StronglySorted ranked_before
      (Track2.select_highlights critical_then_boosted_high None 5 8) /\
  map (fun h => (id (event h), rank h, score h))
      (Track1.select_highlights critical_then_boosted_high None 5 8)
  = [("h", 1, 120); ("c", 2, 100)].
Proof.
  split; [reflexivity|]. split; [|reflexivity].
  intros S. apply StronglySorted_inv in S as [_ F].
  apply Forall_inv in F. destruct F as [F _]. vm_compute in F.
  now apply F.
Qed.

(* ================================================================== *)
(** ** The favorite-player quota *)

(** C2, at an input with four favorite-player events (at least 3, and
    enough for the quota of [ceil(8 / 2) = 4]): both tracks return the eight
    events of the other player and none of the favorite player's. *)
Theorem C2_quota_not_met :
  let prefs := Some (mkUserPreference (Some "Star") None) in
  let out1 := Track1.select_highlights eight_other_four_star prefs 5 8 in
  let out2 := Track2.select_highlights eight_other_four_star prefs 5 8 in
  len (filter (features "Star") eight_other_four_star) = 4 /\
  len out2 = 8 /\ (len out2 + 1) / 2 = 4 /\
  len (filter (features "Star") (map event out2)) = 0 /\
  map (fun h => (id (event h), score h)) out2
  = [("other0", 75); ("other1", 75); ("other2", 75); ("other3", 75);
     ("other4", 75); ("other5", 75); ("other6", 75); ("other7", 75)] /\
  map (fun h => (id (event h), score h)) out1
  = map (fun h => (id (event h), score h)) out2.
Proof.
  repeat split; vm_compute; reflexivity.
Qed.

(* ================================================================== *)
(** ** Explanations *)

(** Case analysis on the condition of a conditional. *)
Ltac case_if :=
  match goal with
  | |- context [if ?c then _ else _] =>
      lazymatch type of c with bool => destruct c end
  end.

Lemma append_empty_r (s : string) : (s ++ "")%string = s.
Proof. induction s; simpl; [reflexivity | now rewrite IHs]. Qed.

Lemma append_nonempty_l (s t : string) : s <> "" -> (s ++ t)%string <> "".
Proof. destruct s; [congruence | discriminate]. Qed.

Lemma join_nonempty (sep : string) (l : list string) :
  l <> [] -> Forall (fun s => s <> "") l -> join sep l <> "".
Proof.
  destruct l as [|x l]; [congruence|]. intros _ F.
  apply Forall_inv in F. unfold join. simpl.
  destruct l; [exact F | now apply append_nonempty_l].
Qed.

Lemma t1_details_nonempty ev breakdown :
  Forall (fun s => s <> "") (Track1.explanation_details ev breakdown).
Proof.
  unfold Track1.explanation_details.
  repeat (apply Forall_app; split);
    repeat case_if;
    repeat constructor; discriminate.
Qed.

Lemma t1_first_sentence ev :
  Track1.importance_sentence ev
  = spec_first_sentence (importance ev) (replace_char "_" " " (type ev))
                        (player ev).
Proof. reflexivity. Qed.

(** The explanation of track 1 never fails, and it is sentence 1 alone or
    sentence 1, a space and a second sentence. *)
Lemma t1_explanation_shape ev breakdown :
  Track1.generate_explanation_checked ev breakdown
  = Some (Track1.generate_explanation ev breakdown) /\
  exists rest,
    Track1.generate_explanation ev breakdown
    = (Track1.importance_sentence ev ++ rest)%string.
Proof.
  unfold Track1.generate_explanation, Track1.generate_explanation_checked.
  pose proof (t1_details_nonempty ev breakdown) as F.
  destruct (Track1.explanation_details ev breakdown) as [|d ds] eqn:E.
  - split; [reflexivity|]. exists "". unfold join. simpl.
    now rewrite append_empty_r.
  - assert (N : join ", " (d :: ds) <> "")
      by (apply join_nonempty; [discriminate | exact F]).
    destruct (join ", " (d :: ds)) as [|c s]; [congruence|].
    simpl. split; [reflexivity|]. eexists. reflexivity.
Qed.

Lemma t1_sentence_nonempty ev : Track1.importance_sentence ev <> "".
Proof.
  unfold Track1.importance_sentence.
  repeat case_if;
    discriminate.
Qed.

(** The wording track 1 contributes itself, with the type, player and team
    texts left blank, holds no implementation vocabulary. *)
Lemma t1_wording_jargon_free i ts q d imp tg breakdown :
  jargon_free
    (Track1.generate_explanation (mkGameEvent i "" ts q "" "" d imp tg)
       breakdown) = true.
Proof.
  unfold Track1.generate_explanation, Track1.generate_explanation_checked,
    Track1.importance_sentence, Track1.explanation_details.
  cbn [type player team importance tags quarter replace_char].
  repeat case_if;
    vm_compute; reflexivity.
Qed.

Lemma t2_opening_eq imp :
  match Track2.phrase_get imp Track2.importance_phrases with
  | Some phrase => phrase
  | None => "Notable play"
  end = t2_opening imp.
Proof.
  unfold t2_opening. simpl.
  repeat match goal with |- context [String.eqb ?a ?b] =>
    destruct (String.eqb a b) end; reflexivity.
Qed.

Lemma t2_first_tag_phrase_cases (keys : list string) :
  Track2.first_tag_phrase keys = [] \/
  exists p, In p (map snd Track2.tag_phrases) /\
            Track2.first_tag_phrase keys = [p].
Proof.
  induction keys as [|k keys IH]; simpl; [now left|].
  repeat match goal with |- context [String.eqb ?a ?b] =>
    destruct (String.eqb a b) end;
    try exact IH; right; eexists; (split; [|reflexivity]); simpl; tauto.
Qed.

(** The explanation of track 2 is its opening phrase, possibly more text,
    and a final period. *)
Lemma t2_explanation_shape ev breakdown preference :
  exists middle,
    Track2._generate_explanation ev breakdown preference
    = (t2_opening (importance ev) ++ middle ++ ".")%string.
Proof.
  unfold Track2._generate_explanation. rewrite t2_opening_eq.
  case_if.
  - exists "". reflexivity.
  - match goal with
    | |- exists m, (_ ++ " " ++ ?x ++ ".")%string = _ =>
        exists (" " ++ x)%string
    end.
    reflexivity.
Qed.

Lemma t2_opening_nonempty imp : t2_opening imp <> "".
Proof.
  unfold t2_opening.
  repeat case_if;
    discriminate.
Qed.

(** The wording track 2 contributes itself, with the player and team texts
    left blank, holds no implementation vocabulary. *)
Lemma t2_wording_jargon_free i ty ts q d imp tg breakdown preference :
  jargon_free
    (Track2._generate_explanation (mkGameEvent i ty ts q "" "" d imp tg)
       breakdown preference) = true.
Proof.
  unfold Track2._generate_explanation. rewrite t2_opening_eq.
  cbn [type player team importance tags quarter].
  destruct (t2_first_tag_phrase_cases (dict_keys (context_boosts breakdown)))
    as [->|(p & Hp & ->)].
  - unfold t2_opening.
    destruct (context_boosts breakdown);
      repeat case_if; vm_compute; reflexivity.
  - simpl in Hp. unfold t2_opening.
    destruct Hp as [<-|[<-|[<-|[<-|[<-|[]]]]]];
      destruct (context_boosts breakdown);
      repeat case_if; vm_compute; reflexivity.
Qed.

(** C6 (as amended).  Track 1: [generate_explanation(event, breakdown)]
    never fails, returns a non-empty string, and the string starts with the
    sentence selected by the importance, for critical importance exactly
    "This critical {type} by {player} was a defining moment of the game." with
    the underscores of the type replaced by spaces.  Track 2:
    [_generate_explanation(event, breakdown, preference)] returns a non-empty
    string made of the opening phrase selected by the importance ("Critical
    game moment", "High-impact play", "Notable play", "Contributing play";
    "Notable play" for any other value), possibly more text, and a final
    period.  On both tracks the wording the function contributes itself (the
    explanation with the type, player and team texts left blank) contains none
    of the implementation words of the repository's jargon test. *)
Theorem C6_explanation_shape :
  forall (ev : GameEvent) (breakdown : ScoreBreakdown)
         (preference : option UserPreference),
    (Track1.generate_explanation_checked ev breakdown
     = Some (Track1.generate_explanation ev breakdown) /\
     Track1.generate_explanation ev breakdown <> "" /\
     exists rest,
       Track1.generate_explanation ev breakdown
       = (spec_first_sentence (importance ev)
            (replace_char "_" " " (type ev)) (player ev) ++ rest)%string) /\
    (forall type_display player,
        spec_first_sentence "critical" type_display player
        = ("This critical " ++ type_display ++ " by " ++ player
           ++ " was a defining moment of the game.")%string) /\
    (Track2._generate_explanation ev breakdown preference <> "" /\
     exists middle,
       Track2._generate_explanation ev breakdown preference
       = (t2_opening (importance ev) ++ middle ++ ".")%string) /\
    jargon_free
      (Track1.generate_explanation (without_names ev) breakdown) = true /\
    jargon_free
      (Track2._generate_explanation (without_names ev) breakdown preference)
    = true.
Proof.
  intros ev b p.
  destruct (t1_explanation_shape ev b) as (Hsome & rest & Hrest).
  destruct (t2_explanation_shape ev b p) as (middle & Hmid).
  repeat split.
  - exact Hsome.
  - rewrite Hrest. apply append_nonempty_l, t1_sentence_nonempty.
  - exists rest. now rewrite <- t1_first_sentence.
  - rewrite Hmid. apply append_nonempty_l, t2_opening_nonempty.
  - now exists middle.
  - apply t1_wording_jargon_free.
  - apply t2_wording_jargon_free.
Qed.

(** C6, the claim as stated, fails: track 2 explains a critical event as
    "Critical game moment.", which is not the specified template; and track 1
    copies the player text as it is, so an event whose player text is
    "total_score" gets an explanation containing that internal name. *)
Lemma C6_counterexample :
  Track2._generate_explanation (plain_event "a" "critical")
    (Track2.calculate_score (plain_event "a" "critical") None) None
  = "Critical game moment." /\
  String.prefix
    "This critical play by Player was a defining moment of the game."
    (Track2._generate_explanation (plain_event "a" "critical")
       (Track2.calculate_score (plain_event "a" "critical") None) None)
  = false /\
  Track1.generate_explanation (player_event "a" "critical" "total_score")
    (Track1.score_event (player_event "a" "critical" "total_score") None)
  = "This critical play by total_score was a defining moment of the game." /\
  jargon_free
    (Track1.generate_explanation (player_event "a" "critical" "total_score")
       (Track1.score_event (player_event "a" "critical" "total_score") None))
  = false.
Proof.
  repeat split; vm_compute; reflexivity.
Qed.

(* ================================================================== *)
(** ** Scores of the highlights *)

Lemma t1_rank_and_filter_incl (scored_events : list scored) mn mx x :
  In x (Track1.rank_and_filter scored_events mn mx) -> In x scored_events.
Proof.
  rewrite t1_rank_and_filter_eq. cbv zeta. intros H.
  apply sorted_In, t1_fill_incl in H. destruct H as [H|H].
  - unfold t1_kept_critical in H.
    destruct (_ >? mx) in H; [apply slice_to_incl in H|];
      apply filter_In in H; eapply sorted_In, H.
  - apply filter_In in H. eapply sorted_In, H.
Qed.

Lemma t2_pick_incl mn mx (l : list scored) x :
  In x (t2_pick mn mx l) -> In x l.
Proof.
  unfold t2_pick. repeat case_if; auto. apply slice_to_incl.
Qed.

Lemma t2_selection_incl events preference mn mx x :
  In x (t2_selection events preference mn mx) ->
  In x (map (fun ev => (ev, Track2.calculate_score ev preference)) events).
Proof.
  unfold t2_selection. cbv zeta. intros H.
  apply (Permutation_in _ (t2_quota_perm _ _)) in H.
  apply in_app_or in H as [H|H]; [|apply t2_pick_incl in H];
    apply filter_In in H; eapply sorted_In, H.
Qed.

Lemma in_highlights {A : Type} (mk : Z * A -> Highlight) (l : list A) h :
  In h (map mk (enumerate 1 l)) -> exists r x, In x l /\ h = mk (r, x).
Proof.
  generalize 1. induction l as [|x l IH]; intros n; simpl; [tauto|].
  intros [<-|H].
  - exists n, x. auto.
  - apply IH in H as (r & y & Hy & ->). exists r, y. auto.
Qed.

(** C7. For every event and preference the breakdown built by the scoring
    function of either track has [total_score] equal to
    [base_score + player_boost + team_boost + sum(context_boosts.values())];
    and the pipeline builds its breakdowns with that function only: the score
    of every highlight it returns is that sum for the highlight's event. *)
Theorem C7_total_score_is_component_sum :
  (forall ev prefs,
      total_score (Track1.score_event ev prefs) =
      components_sum (Track1.score_event ev prefs)) /\
  (forall ev preference,
      total_score (Track2.calculate_score ev preference) =
      components_sum (Track2.calculate_score ev preference)) /\
  (forall events prefs min_count max_count h,
      In h (Track1.select_highlights events prefs min_count max_count) ->
      score h =
      components_sum (Track1.score_event (event h) (Some (t1_prefs prefs)))) /\
  (forall events preference min_count max_count h,
      In h (Track2.select_highlights events preference min_count max_count) ->
      score h =
      components_sum (Track2.calculate_score (event h) preference)).
Proof.
  split; [reflexivity|]. split; [reflexivity|]. split.
  - intros events prefs mn mx h H. rewrite t1_select_highlights_eq in H.
    apply in_highlights in H as (r & [ev b] & Hx & ->).
    apply t1_rank_and_filter_incl, in_map_iff in Hx as (ev' & [= -> <-] & _).
    reflexivity.
  - intros events preference mn mx h H. rewrite t2_select_highlights_eq in H.
    apply in_highlights in H as (r & [ev b] & Hx & ->).
    apply t2_selection_incl, in_map_iff in Hx as (ev' & [= -> <-] & _).
    reflexivity.
Qed.

(** C7 at the single highlight of a one-event input. *)
Lemma C7_witness :
  score (mkHighlight (plain_event "a" "critical") 1 100
           "This critical play by Player was a defining moment of the game.")
  = components_sum
      (Track1.score_event (plain_event "a" "critical")
         (Some (t1_prefs None))).
Proof.
  apply (proj1 (proj2 (proj2 C7_total_score_is_component_sum))
           [plain_event "a" "critical"] None 5 8).
  left. reflexivity.
Defined.

(* ================================================================== *)
(** * Further properties *)

(** ** Ranks *)

Lemma ranks_of_enumerate {A : Type} (mk : Z * A -> Highlight) (l : list A) :
  (forall r x, rank (mk (r, x)) = r) ->
  forall start,
    map rank (map mk (enumerate start l))
    = py_range start (List.length (map mk (enumerate start l))).
Proof.
  intros Hmk. induction l as [|x l IH]; intros start; simpl;
    [reflexivity | now rewrite Hmk, <- IH].
Qed.

(** The ranks of the highlights returned by either track are 1, 2, ..., N
    in output order, N being the number of highlights. *)
Theorem select_highlights_ranks :
  forall (events : list GameEvent) (prefs : option UserPreference)
         (min_count max_count : Z),
    map rank (Track1.select_highlights events prefs min_count max_count)
    = py_range 1
        (List.length
           (Track1.select_highlights events prefs min_count max_count)) /\
    map rank (Track2.select_highlights events prefs min_count max_count)
    = py_range 1
        (List.length
           (Track2.select_highlights events prefs min_count max_count)).
Proof.
  intros events prefs mn mx. split.
  - rewrite t1_select_highlights_eq. apply ranks_of_enumerate.
    now intros r [ev b].
  - rewrite t2_select_highlights_eq. apply ranks_of_enumerate.
    now intros r [ev b].
Qed.

(** ** What a selection keeps and what it leaves out *)

Lemma slice_to_firstn {A : Type} (k : Z) (l : list A) :
  exists n, slice_to k l = firstn n l.
Proof. unfold slice_to. destruct (k <? 0); eexists; reflexivity. Qed.

Lemma t1_fill_firstn (mx : Z) (rest result : list scored) :
  exists n, Track1.fill mx result rest = (result ++ firstn n rest)%list.
Proof.
  revert result. induction rest as [|x rest IH]; intros result; simpl.
  - exists O. now rewrite app_nil_r.
  - destruct (len result >=? mx).
    + exists O. now rewrite app_nil_r.
    + destruct (IH (result ++ [x])%list) as [n Hn]. exists (S n).
      rewrite Hn, <- app_assoc. reflexivity.
Qed.

Lemma t1_kept_critical_firstn (mx : Z) (l : list scored) :
  exists n, t1_kept_critical mx l = firstn n (filter is_critical l).
Proof.
  unfold t1_kept_critical. destruct (_ >? mx).
  - apply slice_to_firstn.
  - exists (List.length (filter is_critical l)). now rewrite firstn_all.
Qed.

Lemma t2_pick_firstn (mn mx : Z) (l : list scored) :
  exists n, t2_pick mn mx l = firstn n l.
Proof.
  unfold t2_pick. repeat case_if; try apply slice_to_firstn;
    exists (List.length l); now rewrite firstn_all.
Qed.

(** Track 1 returns, up to order, a prefix of the sorted critical items and
    a prefix of the sorted non-critical items. *)
Lemma t1_rank_and_filter_prefixes (scored_events : list scored) mn mx :
  exists n m,
    Permutation (Track1.rank_and_filter scored_events mn mx)
      (firstn n (filter is_critical
                   (sorted key_ltb Track1.sort_key scored_events))
       ++ firstn m (filter (fun x => negb (is_critical x))
                      (sorted key_ltb Track1.sort_key scored_events)))%list.
Proof.
  rewrite t1_rank_and_filter_eq. cbv zeta.
  set (s := sorted key_ltb Track1.sort_key scored_events).
  destruct (t1_kept_critical_firstn mx s) as [n Hn].
  destruct (t1_fill_firstn mx (filter (fun x => negb (is_critical x)) s)
              (t1_kept_critical mx s)) as [m Hm].
  exists n, m. rewrite Hm, Hn. apply sorted_perm.
Qed.

(** Track 2 returns, up to order, every sorted critical item and a prefix
    of the sorted non-critical items. *)
Lemma t2_selection_prefixes events preference mn mx :
  exists m,
    Permutation (t2_selection events preference mn mx)
      (filter is_critical
         (sorted key_ltb Track2.sort_key
            (map (fun ev => (ev, Track2.calculate_score ev preference))
                 events))
       ++ firstn m
            (filter (fun x => negb (is_critical x))
               (sorted key_ltb Track2.sort_key
                  (map (fun ev => (ev, Track2.calculate_score ev preference))
                       events))))%list.
Proof.
  unfold t2_selection. cbv zeta.
  match goal with |- context [t2_pick mn mx ?l] =>
    destruct (t2_pick_firstn mn mx l) as [m Hm] end.
  exists m. rewrite Hm. apply t2_quota_perm.
Qed.

Lemma prefixes_rest {A : Type} (p : A -> bool) (s : list A) (n m : nat) :
  Permutation
    ((firstn n (filter p s) ++ firstn m (filter (fun x => negb (p x)) s))
     ++ (skipn n (filter p s) ++ skipn m (filter (fun x => negb (p x)) s)))
    s.
Proof.
  eapply perm_trans; [|apply (filter_split_perm p s)].
  rewrite <- (firstn_skipn n (filter p s)) at 3.
  rewrite <- (firstn_skipn m (filter (fun x => negb (p x)) s)) at 3.
  rewrite <- !app_assoc. apply Permutation_app_head.
  rewrite !app_assoc. apply Permutation_app_tail, Permutation_app_comm.
Qed.

Lemma scored_events_fst (f : GameEvent -> ScoreBreakdown) events :
  map fst (map (fun ev => (ev, f ev)) events) = events.
Proof. rewrite map_map. simpl. apply map_id. Qed.

Lemma t1_output_sub_input events prefs mn mx :
  exists left_out,
    Permutation
      (map event (Track1.select_highlights events prefs mn mx) ++ left_out)%list
      events.
Proof.
  rewrite t1_select_highlights_events.
  destruct (t1_rank_and_filter_prefixes
              (map (fun ev => (ev, t1_score prefs ev)) events) mn mx)
    as (n & m & P).
  set (s := sorted key_ltb Track1.sort_key
              (map (fun ev => (ev, t1_score prefs ev)) events)) in P.
  exists (map fst (skipn n (filter is_critical s)
                   ++ skipn m (filter (fun x => negb (is_critical x)) s))).
  rewrite <- map_app.
  rewrite <- (scored_events_fst (t1_score prefs) events) at 2.
  apply Permutation_map.
  eapply perm_trans; [apply Permutation_app_tail, P|].
  eapply perm_trans; [apply prefixes_rest | apply sorted_perm].
Qed.

Lemma t2_output_sub_input events prefs mn mx :
  exists left_out,
    Permutation
      (map event (Track2.select_highlights events prefs mn mx) ++ left_out)%list
      events.
Proof.
  rewrite t2_select_highlights_events.
  destruct (t2_selection_prefixes events prefs mn mx) as (m & P).
  set (s := sorted key_ltb Track2.sort_key
              (map (fun ev => (ev, Track2.calculate_score ev prefs))
                   events)) in P.
  exists (map fst (skipn m (filter (fun x => negb (is_critical x)) s))).
  rewrite <- map_app.
  rewrite <- (scored_events_fst
                (fun ev => Track2.calculate_score ev prefs) events) at 2.
  apply Permutation_map.
  eapply perm_trans; [apply Permutation_app_tail, P|].
  rewrite <- app_assoc, firstn_skipn.
  eapply perm_trans; [apply filter_split_perm | apply sorted_perm].
Qed.

(** The events of the highlights are input events, each returned at most
    as often as it occurs in the input: the output together with some list of
    left-out events is a rearrangement of the input.  So neither track invents
    or repeats an event. *)
Theorem select_highlights_sub_input :
  forall (events : list GameEvent) (prefs : option UserPreference)
         (min_count max_count : Z),
    (exists left_out,
        Permutation
          (map event
             (Track1.select_highlights events prefs min_count max_count)
           ++ left_out)%list events) /\
    (exists left_out,
        Permutation
          (map event
             (Track2.select_highlights events prefs min_count max_count)
           ++ left_out)%list events).
Proof.
  intros events prefs mn mx. split;
    [apply t1_output_sub_input | apply t2_output_sub_input].
Qed.

(** ** The best events are kept *)

Lemma StronglySorted_filter_keep {A : Type} (R : A -> A -> Prop)
    (p : A -> bool) (l : list A) :
  StronglySorted R l -> StronglySorted R (filter p l).
Proof.
  induction 1 as [|x l Hl IH Hx]; simpl; [constructor|].
  destruct (p x); [|exact IH].
  constructor; [exact IH|].
  rewrite Forall_forall in *. intros y Hy. apply Hx.
  now apply filter_In in Hy.
Qed.

Lemma StronglySorted_firstn {A : Type} (R : A -> A -> Prop)
    (n : nat) (l : list A) :
  StronglySorted R l -> StronglySorted R (firstn n l).
Proof.
  intros S. revert n. induction S as [|x l Hl IH Hx]; intros [|n]; simpl;
    try constructor; [apply IH|].
  rewrite Forall_forall in *. intros y Hy. apply Hx.
  eapply firstn_In, Hy.
Qed.

(** In a sorted list every item of a prefix may stand in front of every
    item behind the prefix. *)
Lemma StronglySorted_prefix_rest {A : Type} (R : A -> A -> Prop)
    (n : nat) (l : list A) (x y : A) :
  StronglySorted R l -> In x (firstn n l) -> In y (skipn n l) -> R x y.
Proof.
  intros S. revert n. induction S as [|z l Hl IH Hz]; intros [|n]; simpl;
    try tauto.
  intros [<-|Hx] Hy.
  - rewrite Forall_forall in Hz. apply Hz.
    rewrite <- (firstn_skipn n l). apply in_or_app. now right.
  - now apply (IH n).
Qed.

Lemma sorted_by_key (key : scored -> sort_key_t) (l : list scored) :
  StronglySorted (key_le key_ltb key) (sorted key_ltb key l).
Proof.
  apply sorted_StronglySorted; [apply key_ltb_asym | apply key_ltb_negtrans].
Qed.

(** An item of a class ([p] true or [p] false) that is not in the kept
    prefix of its class is not ranked strictly in front of any kept item of
    that class. *)
Lemma kept_prefix_is_best (key : scored -> sort_key_t) (p : scored -> bool)
    (s : list scored) (n : nat) (x y : scored) :
  StronglySorted (key_le key_ltb key) s ->
  In x (filter p s) -> In y (firstn n (filter p s)) ->
  key_ltb (key x) (key y) = true ->
  In x (firstn n (filter p s)).
Proof.
  intros S Hx Hy Hlt.
  rewrite <- (firstn_skipn n (filter p s)) in Hx.
  apply in_app_or in Hx as [Hx|Hx]; [exact Hx|].
  pose proof (StronglySorted_prefix_rest _ n _ y x
                (StronglySorted_filter_keep _ p s S) Hy Hx) as Hle.
  unfold key_le in Hle. congruence.
Qed.

(** Neither track leaves out an event while it returns an event of the same
    class (critical, or not critical) that the comparator ranks strictly
    behind it: within each class the selection is a best-first prefix. *)
Theorem select_highlights_keeps_the_best :
  forall (events : list GameEvent) (prefs : option UserPreference)
         (min_count max_count : Z) (ev : GameEvent) (h : Highlight),
    In ev events ->
    critical_event ev = critical_event (event h) ->
    (In h (Track1.select_highlights events prefs min_count max_count) ->
     key_ltb (Track1.sort_key (ev, t1_score prefs ev))
             (Track1.sort_key (event h, t1_score prefs (event h))) = true ->
     In ev (map event
              (Track1.select_highlights events prefs min_count max_count))) /\
    (In h (Track2.select_highlights events prefs min_count max_count) ->
     key_ltb (Track2.sort_key (ev, Track2.calculate_score ev prefs))
             (Track2.sort_key
                (event h, Track2.calculate_score (event h) prefs)) = true ->
     In ev (map event
              (Track2.select_highlights events prefs min_count max_count))).
Proof.
  intros events prefs mn mx ev h Hev Hclass. split; intros Hh Hlt.
  - rewrite t1_select_highlights_events.
    rewrite t1_select_highlights_eq in Hh.
    apply in_highlights in Hh as (r & [eh bh] & Hx & ->).
    simpl in Hclass, Hlt.
    pose proof (t1_rank_and_filter_incl _ _ _ _ Hx) as Hin.
    apply in_map_iff in Hin as (e' & [= -> <-] & _).
    destruct (t1_rank_and_filter_prefixes
                (map (fun e => (e, t1_score prefs e)) events) mn mx)
      as (n & m & P).
    set (s := sorted key_ltb Track1.sort_key
                (map (fun e => (e, t1_score prefs e)) events)) in P.
    assert (Hs : In (ev, t1_score prefs ev) s)
      by (apply sorted_In; now apply (in_map (fun e => (e, t1_score prefs e)))).
    apply (Permutation_in _ P) in Hx.
    apply in_map_iff. exists (ev, t1_score prefs ev). split; [reflexivity|].
    apply (Permutation_in _ (Permutation_sym P)).
    apply in_or_app.
    apply in_app_or in Hx as [Hx|Hx].
    + left.
      assert (Hc : is_critical (eh, t1_score prefs eh) = true)
        by (apply firstn_In, filter_In in Hx; apply Hx).
      apply (kept_prefix_is_best Track1.sort_key is_critical s n _
               (eh, t1_score prefs eh)); auto.
      * apply sorted_by_key.
      * apply filter_In. split; [exact Hs|].
        unfold is_critical in *. simpl in *. unfold critical_event in Hclass.
        congruence.
    + right.
      assert (Hc : negb (is_critical (eh, t1_score prefs eh)) = true)
        by (apply firstn_In, filter_In in Hx; apply Hx).
      apply (kept_prefix_is_best Track1.sort_key
               (fun x => negb (is_critical x)) s m _
               (eh, t1_score prefs eh)); auto.
      * apply sorted_by_key.
      * apply filter_In. split; [exact Hs|].
        unfold is_critical in *. simpl in *. unfold critical_event in Hclass.
        congruence.
  - rewrite t2_select_highlights_events.
    rewrite t2_select_highlights_eq in Hh.
    apply in_highlights in Hh as (r & [eh bh] & Hx & ->).
    simpl in Hclass, Hlt.
    pose proof (t2_selection_incl _ _ _ _ _ Hx) as Hin.
    apply in_map_iff in Hin as (e' & [= -> <-] & _).
    destruct (t2_selection_prefixes events prefs mn mx) as (m & P).
    set (f := fun e => (e, Track2.calculate_score e prefs)) in *.
    set (s := sorted key_ltb Track2.sort_key (map f events)) in P.
    assert (Hs : In (f ev) s) by (apply sorted_In; now apply in_map).
    apply (Permutation_in _ P) in Hx.
    apply in_map_iff. exists (f ev). split; [reflexivity|].
    apply (Permutation_in _ (Permutation_sym P)).
    apply in_or_app.
    destruct (critical_event ev) eqn:Hcrit.
    + left. apply filter_In. split; [exact Hs | exact Hcrit].
    + right. apply in_app_or in Hx as [Hx|Hx].
      * apply filter_In in Hx as [_ Hx]. unfold is_critical in Hx.
        simpl in Hx. unfold critical_event in Hclass. congruence.
      * apply (kept_prefix_is_best Track2.sort_key
                 (fun x => negb (is_critical x)) s m _ (f eh)); auto.
        -- apply sorted_by_key.
        -- apply filter_In. split; [exact Hs|].
           unfold is_critical, f. simpl. unfold critical_event in Hcrit.
           now rewrite Hcrit.
Qed.

(** Three medium events under [max_count = 2]: on both tracks the second
    one is returned with rank 2, and the first one ranks strictly in front
    of it, so the first one is returned too. *)
Lemma select_highlights_keeps_the_best_witness :
  In (plain_event "a" "medium")
     (map event (Track1.select_highlights three_medium None 1 2)) /\
  In (plain_event "a" "medium")
     (map event (Track2.select_highlights three_medium None 1 2)).
Proof.
  split.
  - apply (proj1 (select_highlights_keeps_the_best three_medium None 1 2
             (plain_event "a" "medium")
             (mkHighlight (plain_event "b" "medium") 2 50
                (Track1.generate_explanation (plain_event "b" "medium")
                   (t1_score None (plain_event "b" "medium"))))
             (or_introl eq_refl) eq_refl)).
    + right. left. reflexivity.
    + reflexivity.
  - apply (proj2 (select_highlights_keeps_the_best three_medium None 1 2
             (plain_event "a" "medium")
             (mkHighlight (plain_event "b" "medium") 2 50
                (Track2._generate_explanation (plain_event "b" "medium")
                   (Track2.calculate_score (plain_event "b" "medium") None)
                   None))
             (or_introl eq_refl) eq_refl)).
    + right. left. reflexivity.
    + reflexivity.
Defined.

(** ** Size of the output for every integer bound *)

Lemma slice_to_len_negative {A : Type} (k : Z) (l : list A) :
  k < 0 -> len (slice_to k l) = Z.max 0 (len l + k).
Proof.
  intros H. unfold slice_to. destruct (Z.ltb_spec k 0); [|lia].
  unfold len in *. rewrite List.length_firstn. lia.
Qed.

Lemma t1_rank_and_filter_len_negative (scored_events : list scored) mn mx :
  mx < 0 ->
  len (Track1.rank_and_filter scored_events mn mx)
  = Z.max 0 (len (filter is_critical scored_events) + mx).
Proof.
  intros H. rewrite t1_rank_and_filter_eq. cbv zeta.
  rewrite (len_perm _ _ (sorted_perm _ _ _)).
  set (s := sorted key_ltb Track1.sort_key scored_events).
  assert (Hk : len (t1_kept_critical mx s)
               = Z.max 0 (len (filter is_critical scored_events) + mx)).
  { unfold t1_kept_critical.
    pose proof (len_nonneg (filter is_critical s)).
    destruct (Z.gtb_spec (len (filter is_critical s)) mx); [|lia].
    rewrite slice_to_len_negative by exact H. unfold s.
    now rewrite (len_perm _ _ (filter_perm is_critical _ _
                                 (sorted_perm key_ltb Track1.sort_key _))). }
  rewrite t1_fill_done; [exact Hk|].
  pose proof (len_nonneg (t1_kept_critical mx s)). lia.
Qed.

(** The number of highlights for every integer [max_count].  Track 1
    returns [min(len(events), max_count)] highlights when [max_count >= 0];
    under a negative [max_count] it returns the critical events only,
    without the last [-max_count] of them.  Track 2 returns every critical
    event, and every non-critical event when they number at most
    [max(min_count, max_count)]; otherwise [max_count] of them, or, under a
    negative [max_count], all but the last [-max_count] of them. *)
Theorem select_highlights_size :
  forall (events : list GameEvent) (prefs : option UserPreference)
         (min_count max_count : Z),
    len (Track1.select_highlights events prefs min_count max_count)
    = (if max_count >=? 0 then Z.min (len events) max_count
       else Z.max 0 (len (critical_of events) + max_count)) /\
    len (Track2.select_highlights events prefs min_count max_count)
    = len (critical_of events)
      + (if len (non_critical_of events) <=? Z.max min_count max_count
         then len (non_critical_of events)
         else if max_count >=? 0 then max_count
         else Z.max 0 (len (non_critical_of events) + max_count)).
Proof.
  intros events prefs mn mx. split.
  - destruct (Z.geb_spec mx 0) as [H|H].
    + apply t1_select_highlights_len. lia.
    + rewrite t1_select_highlights_eq, len_map.
      rewrite <- (len_map snd), enumerate_snd.
      rewrite t1_rank_and_filter_len_negative by exact H.
      change is_critical with (fun item : scored => critical_event (fst item)).
      now rewrite filter_scored, len_map.
  - pose proof (len_critical_split events) as Hs.
    destruct (Z.leb_spec (len (non_critical_of events)) (Z.max mn mx))
      as [H|H].
    + rewrite t2_len_all by exact H. lia.
    + destruct (Z.geb_spec mx 0) as [H0|H0].
      * apply t2_len_capped; lia.
      * rewrite t2_select_highlights_len, t2_selection_len. f_equal.
        rewrite <- (len_non_critical_scored
                      (fun ev => Track2.calculate_score ev prefs)
                      key_ltb Track2.sort_key) in H |- *.
        unfold t2_pick.
        repeat match goal with |- context [?a <=? ?b] =>
          destruct (Z.leb_spec a b) end; try lia.
        now apply slice_to_len_negative.
Qed.

(** ** When the output of track 2 is sorted *)

Lemma t2_key_le_ranked preference (i j : Z) (x y : scored) :
  key_le key_ltb Track2.sort_key x y ->
  ranked_before (t2_highlight preference (i, x))
                (t2_highlight preference (j, y)).
Proof.
  destruct x as [e1 b1], y as [e2 b2]. intros H. unfold key_le in H.
  apply key_ltb_false_iff in H.
  unfold Track2.sort_key, Track2._create_sort_key, key_leq in H.
  simpl in H. destruct H as (H1 & H2). unfold ranked_before. simpl.
  change (Track1._importance_rank (importance e1))
    with (dict_get_default (importance e1) 0 Track2.importance_rank).
  change (Track1._importance_rank (importance e2))
    with (dict_get_default (importance e2) 0 Track2.importance_rank).
  split; [lia|]. intros E1. destruct H2 as (H2 & H3); [lia|].
  split; [lia|]. intros E2. destruct H3 as (H3 & H4); [lia|].
  split; [lia|]. intros E3. apply str_ltb_false_leb, H4. lia.
Qed.

Lemma favorite_rule_sorted (scored_events : list scored) (fav : string) :
  StronglySorted (key_le key_ltb Track2.sort_key) scored_events ->
  StronglySorted (key_le key_ltb Track2.sort_key)
    (Track2._apply_favorite_player_rule scored_events fav).
Proof.
  intros S. unfold Track2._apply_favorite_player_rule.
  repeat case_if; auto. apply sorted_by_key.
Qed.

Lemma t2_quota_sorted preference (selected : list scored) :
  StronglySorted (key_le key_ltb Track2.sort_key) selected ->
  StronglySorted (key_le key_ltb Track2.sort_key)
    (t2_quota preference selected).
Proof.
  intros S. unfold t2_quota.
  destruct preference as [[[fp|] ft]|]; simpl; auto.
  destruct (str_truthy fp); auto. now apply favorite_rule_sorted.
Qed.

Lemma len_zero_nil {A : Type} (l : list A) : len l = 0 -> l = [].
Proof. destruct l; [reflexivity|]. unfold len. simpl. lia. Qed.

(** When the input has no critical event, or only critical events, the
    output of track 2 is sorted by the comparator. *)
Theorem track2_sorted_without_mixed_classes :
  forall (events : list GameEvent) (preference : option UserPreference)
         (min_count max_count : Z),
    critical_of events = [] \/ non_critical_of events = [] ->
    StronglySorted ranked_before
      (Track2.select_highlights events preference min_count max_count).
Proof.
  intros events preference mn mx H.
  rewrite t2_select_highlights_eq.
  apply (StronglySorted_enumerate (key_le key_ltb Track2.sort_key)).
  { intros i j x y. apply t2_key_le_ranked. }
  unfold t2_selection. cbv zeta. apply t2_quota_sorted.
  set (s := sorted key_ltb Track2.sort_key
              (map (fun ev => (ev, Track2.calculate_score ev preference))
                   events)).
  assert (S : StronglySorted (key_le key_ltb Track2.sort_key) s)
    by apply sorted_by_key.
  destruct (t2_pick_firstn mn mx (filter (fun x => negb (is_critical x)) s))
    as [n ->].
  destruct H as [H|H].
  - assert (E : filter is_critical s = []).
    { apply len_zero_nil. unfold s.
      rewrite (len_critical_scored
                 (fun ev => Track2.calculate_score ev preference)).
      now rewrite H. }
    rewrite E. simpl.
    now apply StronglySorted_firstn, StronglySorted_filter_keep.
  - assert (E : filter (fun x => negb (is_critical x)) s = []).
    { apply len_zero_nil. unfold s.
      rewrite (len_non_critical_scored
                 (fun ev => Track2.calculate_score ev preference)).
      now rewrite H. }
    rewrite E, firstn_nil, app_nil_r.
    now apply StronglySorted_filter_keep.
Qed.

(** Eight medium events, no critical one: the output of track 2 is
    sorted. *)
Lemma track2_sorted_without_mixed_classes_witness :
  StronglySorted ranked_before
    (Track2.select_highlights
       (map (fun i => plain_event i "medium")
            ["med0"; "med1"; "med2"; "med3"; "med4"; "med5"; "med6"; "med7"])
       None 5 8).
Proof.
  apply track2_sorted_without_mixed_classes. left. reflexivity.
Defined.

(** ** Closed form of the scores *)

Lemma dict_values_sum_perm (d1 d2 : dict) :
  Permutation d1 d2 -> dict_values_sum d1 = dict_values_sum d2.
Proof.
  unfold dict_values_sum.
  induction 1; simpl; lia.
Qed.

Lemma dict_get_In (d : dict) (k : string) (v : Z) :
  NoDup (dict_keys d) -> (In (k, v) d <-> dict_get k d = Some v).
Proof.
  induction d as [|[k' v'] d IH]; simpl; intros ND.
  - split; [tauto | discriminate].
  - inversion ND as [|? ? Hk ND']; subst.
    destruct (String.eqb_spec k k') as [->|Hne].
    + split.
      * intros [[= ->]|H]; [reflexivity|].
        exfalso. apply Hk. now apply (in_map fst) in H.
      * intros [= ->]. now left.
    + rewrite <- (IH ND'). split; [|tauto].
      intros [E|H]; [|exact H]. injection E as -> ->. congruence.
Qed.

Lemma dict_set_sum_new (k : string) (v : Z) (d : dict) :
  dict_get k d = None ->
  dict_values_sum (dict_set k v d) = dict_values_sum d + v.
Proof.
  induction d as [|[k' v'] d IH]; simpl; intros H.
  - unfold dict_values_sum. simpl. lia.
  - destruct (String.eqb k k'); [discriminate|].
    specialize (IH H). unfold dict_values_sum in *. simpl. lia.
Qed.

(** The tag loop counts every entry of the table once, whatever the order
    and the repetitions of the tags. *)
Lemma tag_loop_sum (table : dict) (tag_list : list string) :
  NoDup (dict_keys table) ->
  dict_values_sum (fold_left (tag_step table) tag_list [])
  = tag_value table tag_list.
Proof.
  intros ND. unfold tag_value. apply dict_values_sum_perm.
  pose proof (tag_loop_NoDup table tag_list [] (NoDup_nil _)) as NDd.
  apply NoDup_Permutation.
  - apply NoDup_map_inv with (f := fst). exact NDd.
  - apply NoDup_filter, NoDup_map_inv with (f := fst). exact ND.
  - intros [k v]. rewrite (dict_get_In _ k v NDd), tag_loop_get.
    rewrite filter_In, (dict_get_In _ k v ND). simpl.
    unfold dict_mem. destruct (str_in k tag_list), (dict_get k table);
      simpl; split; try tauto; try discriminate; intros [? ?]; discriminate.
Qed.

Lemma t1_tag_value (tag_list : list string) :
  tag_value Track1.CONTEXT_BOOST_MAP tag_list
  = 20 * indicator (str_in "clutch" tag_list)
    + 25 * indicator (str_in "game_winner" tag_list)
    + 20 * indicator (str_in "buzzer_beater" tag_list)
    + 15 * indicator (str_in "highlight_reel" tag_list).
Proof.
  unfold tag_value, Track1.CONTEXT_BOOST_MAP. simpl.
  destruct (str_in "clutch" tag_list), (str_in "game_winner" tag_list),
    (str_in "buzzer_beater" tag_list), (str_in "highlight_reel" tag_list);
    reflexivity.
Qed.

Lemma t2_tag_value (tag_list : list string) :
  tag_value Track2.tag_boost_map tag_list
  = 20 * indicator (str_in "clutch" tag_list)
    + 25 * indicator (str_in "game_winner" tag_list)
    + 15 * indicator (str_in "buzzer_beater" tag_list)
    + 15 * indicator (str_in "highlight_reel" tag_list)
    + 10 * indicator (str_in "fourth_quarter" tag_list).
Proof.
  unfold tag_value, Track2.tag_boost_map. simpl.
  destruct (str_in "clutch" tag_list), (str_in "game_winner" tag_list),
    (str_in "buzzer_beater" tag_list), (str_in "highlight_reel" tag_list),
    (str_in "fourth_quarter" tag_list); reflexivity.
Qed.

Lemma t1_total_score ev prefs :
  total_score (Track1.score_event ev prefs)
  = base_score (Track1.score_event ev prefs)
    + player_boost (Track1.score_event ev prefs)
    + team_boost (Track1.score_event ev prefs)
    + tag_value Track1.CONTEXT_BOOST_MAP (tags ev)
    + 10 * indicator (quarter ev =? 4).
Proof.
  change (total_score (Track1.score_event ev prefs))
    with (components_sum (Track1.score_event ev prefs)).
  unfold components_sum.
  change (context_boosts (Track1.score_event ev prefs))
    with (if quarter ev =? 4
          then dict_set "fourth_quarter" Track1.FOURTH_QUARTER_BOOST
                 (Track1.tag_boosts (tags ev))
          else Track1.tag_boosts (tags ev)).
  assert (Hs : dict_values_sum (Track1.tag_boosts (tags ev))
               = tag_value Track1.CONTEXT_BOOST_MAP (tags ev)).
  { apply (tag_loop_sum Track1.CONTEXT_BOOST_MAP).
    repeat constructor; simpl; intuition discriminate. }
  destruct (quarter ev =? 4); unfold indicator.
  - rewrite dict_set_sum_new, Hs; [unfold Track1.FOURTH_QUARTER_BOOST; lia|].
    change (Track1.tag_boosts (tags ev))
      with (fold_left (tag_step Track1.CONTEXT_BOOST_MAP) (tags ev) []).
    rewrite tag_loop_get. simpl. now rewrite andb_false_r.
  - rewrite Hs. lia.
Qed.

Lemma t2_total_score ev preference :
  total_score (Track2.calculate_score ev preference)
  = Track2.calculate_base_score ev
    + Track2.calculate_player_boost ev preference
    + Track2.calculate_team_boost ev preference
    + tag_value Track2.tag_boost_map (tags ev).
Proof.
  unfold Track2.calculate_score. simpl. f_equal.
  apply (tag_loop_sum Track2.tag_boost_map).
  repeat constructor; simpl; intuition discriminate.
Qed.

Lemma str_in_ext (k : string) (l1 l2 : list string) :
  (forall t, In t l1 <-> In t l2) -> str_in k l1 = str_in k l2.
Proof.
  intros H. destruct (str_in k l1) eqn:E1, (str_in k l2) eqn:E2; auto.
  - apply str_in_In, H, str_in_In in E1. congruence.
  - apply str_in_In, H, str_in_In in E2. congruence.
Qed.

Lemma tag_value_ext (table : dict) (l1 l2 : list string) :
  (forall t, In t l1 <-> In t l2) -> tag_value table l1 = tag_value table l2.
Proof.
  intros H. unfold tag_value. f_equal. apply filter_ext.
  intros [k v]. simpl. now apply str_in_ext.
Qed.

Lemma base_lookup_cases (imp : string) :
  dict_get_default (if dict_mem imp Track1.BASE_SCORES then imp else "low")
                   0 Track1.BASE_SCORES
  = (if String.eqb imp "critical" then 100
     else if String.eqb imp "high" then 75
     else if String.eqb imp "medium" then 50
     else 25) /\
  dict_get_default imp 25 Track2.importance_map
  = (if String.eqb imp "critical" then 100
     else if String.eqb imp "high" then 75
     else if String.eqb imp "medium" then 50
     else 25).
Proof.
  destruct (String.eqb_spec imp "critical") as [->|H1]; [split; reflexivity|].
  destruct (String.eqb_spec imp "high") as [->|H2]; [split; reflexivity|].
  destruct (String.eqb_spec imp "medium") as [->|H3]; [split; reflexivity|].
  destruct (String.eqb_spec imp "low") as [->|H4]; [split; reflexivity|].
  apply String.eqb_neq in H1, H2, H3, H4.
  unfold dict_get_default, dict_mem, Track1.BASE_SCORES,
    Track2.importance_map, dict_get.
  rewrite H1, H2, H3, H4. split; reflexivity.
Qed.

(** The base score by importance, the same on both tracks: 100, 75 and 50
    for critical, high and medium, and 25 for low and for every other
    value. *)
Lemma base_score_cases ev prefs :
  base_score (Track1.score_event ev prefs)
  = (if String.eqb (importance ev) "critical" then 100
     else if String.eqb (importance ev) "high" then 75
     else if String.eqb (importance ev) "medium" then 50
     else 25) /\
  Track2.calculate_base_score ev
  = base_score (Track1.score_event ev prefs).
Proof.
  destruct (base_lookup_cases (importance ev)) as [H1 H2].
  split; [exact H1|].
  unfold Track2.calculate_base_score. rewrite H2. symmetry. exact H1.
Qed.

Lemma t1_boost_values ev prefs :
  (player_boost (Track1.score_event ev prefs) = 0
   \/ player_boost (Track1.score_event ev prefs) = 30) /\
  (team_boost (Track1.score_event ev prefs) = 0
   \/ team_boost (Track1.score_event ev prefs) = 15).
Proof.
  unfold Track1.score_event, Track1.new_ScoreBreakdown. simpl.
  destruct prefs as [[[fp|] [ft|]]|]; simpl; repeat case_if; auto.
Qed.

Lemma t2_boost_values ev preference :
  (Track2.calculate_player_boost ev preference = 0
   \/ Track2.calculate_player_boost ev preference = 30) /\
  (Track2.calculate_team_boost ev preference = 0
   \/ Track2.calculate_team_boost ev preference = 15).
Proof.
  unfold Track2.calculate_player_boost, Track2.calculate_team_boost.
  destruct preference as [[[fp|] [ft|]]|]; simpl; repeat case_if; auto.
Qed.

(** Every total score lies between 25 and 235 on track 1 and between 25
    and 230 on track 2, whatever the event, its tags and the preference. *)
Theorem total_score_bounds :
  forall (ev : GameEvent) (prefs : option UserPreference),
    25 <= total_score (Track1.score_event ev prefs) <= 235 /\
    25 <= total_score (Track2.calculate_score ev prefs) <= 230.
Proof.
  intros ev prefs.
  rewrite t1_total_score, t2_total_score, t1_tag_value, t2_tag_value.
  destruct (base_score_cases ev prefs) as [Hb ->]. rewrite Hb.
  pose proof (t1_boost_values ev prefs) as [Hp Ht].
  pose proof (t2_boost_values ev prefs) as [Hp2 Ht2].
  unfold indicator. repeat case_if; lia.
Qed.

(** The score of an event depends on its tags only through which tags
    occur: two events that agree on importance, player, team and quarter and
    carry the same tags in any order and with any repetitions get the same
    total score, on both tracks. *)
Theorem total_score_ignores_tag_order_and_repeats :
  forall (ev1 ev2 : GameEvent) (prefs : option UserPreference),
    importance ev1 = importance ev2 ->
    player ev1 = player ev2 ->
    team ev1 = team ev2 ->
    quarter ev1 = quarter ev2 ->
    (forall t, In t (tags ev1) <-> In t (tags ev2)) ->
    total_score (Track1.score_event ev1 prefs)
    = total_score (Track1.score_event ev2 prefs) /\
    total_score (Track2.calculate_score ev1 prefs)
    = total_score (Track2.calculate_score ev2 prefs).
Proof.
  intros ev1 ev2 prefs Hi Hp Ht Hq Htags.
  rewrite !t1_total_score, !t2_total_score.
  rewrite (tag_value_ext _ _ _ Htags), (tag_value_ext _ _ _ Htags), Hq.
  destruct ev1, ev2. simpl in *. subst. split; reflexivity.
Qed.

(** A clutch game-winner with its tags repeated and reordered. *)
Lemma total_score_ignores_tag_order_and_repeats_witness :
  total_score
    (Track1.score_event
       (mkGameEvent "a" "play" "00:00" 4 "P" "T" "" "high"
                    ["clutch"; "game_winner"]) None)
  = total_score
      (Track1.score_event
         (mkGameEvent "b" "shot" "00:01" 4 "P" "T" "x" "high"
                      ["game_winner"; "clutch"; "clutch"]) None) /\
  total_score
    (Track2.calculate_score
       (mkGameEvent "a" "play" "00:00" 4 "P" "T" "" "high"
                    ["clutch"; "game_winner"]) None)
  = total_score
      (Track2.calculate_score
         (mkGameEvent "b" "shot" "00:01" 4 "P" "T" "x" "high"
                      ["game_winner"; "clutch"; "clutch"]) None).
Proof.
  apply total_score_ignores_tag_order_and_repeats; try reflexivity.
  intros t. simpl. tauto.
Defined.

(** The two scorers agree except on three points: for every event, and
    every preference whose favorite names are not empty strings, the total of
    track 1 is the total of track 2 plus 5 when the event is tagged
    buzzer_beater, plus 10 when its quarter is 4, minus 10 when it is tagged
    fourth_quarter. *)
Theorem track_scores_differ_by :
  forall (ev : GameEvent) (prefs : option UserPreference),
    (forall p, prefs = Some p ->
               favorite_player p <> Some "" /\ favorite_team p <> Some "") ->
    total_score (Track1.score_event ev prefs)
    = total_score (Track2.calculate_score ev prefs)
      + 5 * indicator (str_in "buzzer_beater" (tags ev))
      + 10 * indicator (quarter ev =? 4)
      - 10 * indicator (str_in "fourth_quarter" (tags ev)).
Proof.
  intros ev prefs Hne.
  rewrite t1_total_score, t2_total_score, t1_tag_value, t2_tag_value.
  destruct (base_score_cases ev prefs) as [_ ->].
  assert (Hp : player_boost (Track1.score_event ev prefs)
               = Track2.calculate_player_boost ev prefs
               /\ team_boost (Track1.score_event ev prefs)
                  = Track2.calculate_team_boost ev prefs).
  { unfold Track1.score_event, Track1.new_ScoreBreakdown,
      Track2.calculate_player_boost, Track2.calculate_team_boost. simpl.
    destruct prefs as [p|]; [|split; reflexivity].
    destruct (Hne p eq_refl) as [Hfp Hft].
    destruct p as [[fp|] [ft|]]; simpl in *; split; try reflexivity;
      unfold str_truthy;
      match goal with
      | |- context [String.eqb ?s ""] =>
          destruct (String.eqb_spec s "") as [->|]; [congruence|]
      end; reflexivity. }
  destruct Hp as [-> ->]. lia.
Qed.

(** A buzzer-beater in quarter 4 scored for a fan of its player. *)
Lemma track_scores_differ_by_witness :
  total_score
    (Track1.score_event
       (mkGameEvent "a" "shot" "00:00" 4 "P" "T" "" "high" ["buzzer_beater"])
       (Some (mkUserPreference (Some "P") None)))
  = total_score
      (Track2.calculate_score
         (mkGameEvent "a" "shot" "00:00" 4 "P" "T" "" "high" ["buzzer_beater"])
         (Some (mkUserPreference (Some "P") None)))
    + 5 * indicator true + 10 * indicator true - 10 * indicator false.
Proof.
  apply (track_scores_differ_by
           (mkGameEvent "a" "shot" "00:00" 4 "P" "T" "" "high"
                        ["buzzer_beater"])
           (Some (mkUserPreference (Some "P") None))).
  intros p [= <-]. simpl. split; discriminate.
Defined.

(** A preference raises the total score of an event by exactly 30 when the
    event's player is the favorite player, and by exactly 15 when its team is
    the favorite team, and leaves every other score as it is without
    preference.  On track 1 an empty favorite name matches nothing; on track
    2 it matches an empty player or team name. *)
Theorem preference_adds_fixed_boosts :
  forall (ev : GameEvent) (p : UserPreference),
    total_score (Track1.score_event ev (Some p))
    = total_score (Track1.score_event ev None)
      + 30 * indicator (opt_str_truthy (favorite_player p)
                        && is_favorite (player ev) (favorite_player p))
      + 15 * indicator (opt_str_truthy (favorite_team p)
                        && is_favorite (team ev) (favorite_team p)) /\
    total_score (Track2.calculate_score ev (Some p))
    = total_score (Track2.calculate_score ev None)
      + 30 * indicator (is_favorite (player ev) (favorite_player p))
      + 15 * indicator (is_favorite (team ev) (favorite_team p)).
Proof.
  intros ev p. rewrite !t1_total_score, !t2_total_score.
  destruct (base_score_cases ev (Some p)) as [-> _].
  destruct (base_score_cases ev None) as [-> _].
  unfold Track1.score_event, Track1.new_ScoreBreakdown,
    Track2.calculate_player_boost, Track2.calculate_team_boost,
    Track1.PLAYER_BOOST, Track1.TEAM_BOOST, is_favorite, opt_str_truthy,
    indicator.
  cbn [player_boost team_boost].
  destruct p as [[fp|] [ft|]]; cbn [favorite_player favorite_team];
    try destruct (str_truthy fp); try destruct (String.eqb (player ev) fp);
    try destruct (str_truthy ft); try destruct (String.eqb (team ev) ft);
    cbn [andb]; split; lia.
Qed.

(** ** Absent preferences *)

Lemma t1_score_falsy_preference (p : UserPreference) ev :
  opt_str_truthy (favorite_player p) = false ->
  opt_str_truthy (favorite_team p) = false ->
  t1_score (Some p) ev = t1_score None ev.
Proof.
  intros Hp Ht. unfold t1_score, t1_prefs, Track1.score_event.
  destruct p as [[fp|] [ft|]]; simpl in *; rewrite ?Hp, ?Ht; reflexivity.
Qed.

(** A preference without favorites selects as no preference at all.  On
    track 2, [UserPreference()] gives the same highlights as [None].  On
    track 1, every preference whose favorite player and favorite team are
    absent or empty strings gives the same highlights as [None]. *)
Theorem absent_preference_is_no_preference :
  forall (events : list GameEvent) (min_count max_count : Z),
    Track2.select_highlights events (Some (mkUserPreference None None))
      min_count max_count
    = Track2.select_highlights events None min_count max_count /\
    (forall p,
        opt_str_truthy (favorite_player p) = false ->
        opt_str_truthy (favorite_team p) = false ->
        Track1.select_highlights events (Some p) min_count max_count
        = Track1.select_highlights events None min_count max_count).
Proof.
  intros events mn mx. split.
  - destruct events; reflexivity.
  - intros p Hp Ht. rewrite !t1_select_highlights_eq.
    rewrite (map_ext (fun ev => (ev, t1_score (Some p) ev))
                     (fun ev => (ev, t1_score None ev))); [reflexivity|].
    intros ev. now rewrite t1_score_falsy_preference.
Qed.

(** Track 1 under a preference of two empty strings. *)
Lemma absent_preference_is_no_preference_witness :
  Track1.select_highlights two_critical
    (Some (mkUserPreference (Some "") (Some ""))) 5 8
  = Track1.select_highlights two_critical None 5 8.
Proof.
  apply (proj2 (absent_preference_is_no_preference two_critical 5 8));
    reflexivity.
Defined.

(** ** Form of the explanations of track 1 *)

Lemma append_assoc (a b c : string) :
  ((a ++ b) ++ c)%string = (a ++ (b ++ c))%string.
Proof. induction a; simpl; [reflexivity | now rewrite IHa]. Qed.

Lemma append_length (a b : string) :
  String.length (a ++ b)%string = (String.length a + String.length b)%nat.
Proof. induction a; simpl; [reflexivity | now rewrite IHa]. Qed.

Lemma append_same_l (a b : string) : (a ++ b)%string = a -> b = "".
Proof.
  intros H. apply (f_equal String.length) in H. rewrite append_length in H.
  destruct b; [reflexivity | simpl in H; lia].
Qed.

Lemma t1_sentence_ends_with_period ev :
  exists body, Track1.importance_sentence ev = (body ++ ".")%string.
Proof.
  unfold Track1.importance_sentence.
  set (t := replace_char "_" " " (type ev)).
  repeat case_if.
  - exists ("This critical " ++ t ++ " by " ++ player ev
            ++ " was a defining moment of the game")%string.
    now rewrite !append_assoc.
  - exists ("A high-impact " ++ t ++ " by " ++ player ev
            ++ " that made a significant difference")%string.
    now rewrite !append_assoc.
  - exists ("A notable " ++ t ++ " by " ++ player ev
            ++ " that contributed to the game's story")%string.
    now rewrite !append_assoc.
  - exists ("This " ++ t ++ " by " ++ player ev
            ++ " added to the overall flow of the game")%string.
    now rewrite !append_assoc.
Qed.

(** The explanation of track 1 always ends with a period, and it is the
    importance sentence alone exactly when no detail applies: the event
    carries none of the tags game_winner, clutch, buzzer_beater and
    highlight_reel, and the breakdown has no player and no team boost. *)
Theorem track1_explanation_form :
  forall (ev : GameEvent) (breakdown : ScoreBreakdown),
    (exists body,
        Track1.generate_explanation ev breakdown = (body ++ ".")%string) /\
    (Track1.generate_explanation ev breakdown = Track1.importance_sentence ev
     <->
     str_in "game_winner" (tags ev) = false /\
     str_in "clutch" (tags ev) = false /\
     str_in "buzzer_beater" (tags ev) = false /\
     str_in "highlight_reel" (tags ev) = false /\
     player_boost breakdown <= 0 /\ team_boost breakdown <= 0).
Proof.
  intros ev b.
  assert (Hd : Track1.explanation_details ev b = [] <->
               str_in "game_winner" (tags ev) = false /\
               str_in "clutch" (tags ev) = false /\
               str_in "buzzer_beater" (tags ev) = false /\
               str_in "highlight_reel" (tags ev) = false /\
               player_boost b <= 0 /\ team_boost b <= 0).
  { unfold Track1.explanation_details.
    destruct (str_in "game_winner" (tags ev)), (str_in "clutch" (tags ev)),
      (str_in "buzzer_beater" (tags ev)),
      (str_in "highlight_reel" (tags ev)),
      (Z.gtb_spec (player_boost b) 0), (Z.gtb_spec (team_boost b) 0),
      (quarter ev =? 4); simpl;
      (split; [try discriminate; intros _; repeat split; lia
              | intros (? & ? & ? & ? & ? & ?);
                try discriminate; try lia; reflexivity]). }
  pose proof (t1_details_nonempty ev b) as F.
  unfold Track1.generate_explanation, Track1.generate_explanation_checked.
  destruct (Track1.explanation_details ev b) as [|d ds] eqn:E.
  - unfold join. simpl. split; [apply t1_sentence_ends_with_period|].
    split; [intros _; now apply Hd | reflexivity].
  - assert (N : join ", " (d :: ds) <> "")
      by (apply join_nonempty; [discriminate | exact F]).
    destruct (join ", " (d :: ds)) as [|c s]; [congruence|].
    unfold join. simpl. split.
    + exists (Track1.importance_sentence ev ++ " "
              ++ String (upper_ascii c) s)%string.
      now rewrite !append_assoc.
    + split.
      * intros H. apply append_same_l in H. discriminate H.
      * intros H. apply Hd in H. discriminate H.
Qed.

(* ================================================================== *)
(** ** Encoding and decoding, track 1 *)

Lemma normalized_importance_level (s : string) :
  In (normalized_importance s) importance_levels.
Proof.
  unfold normalized_importance, dict_mem, Track1.IMPORTANCE_RANK,
    importance_levels. simpl.
  destruct (String.eqb_spec s "critical") as [->|]; [simpl; tauto|].
  destruct (String.eqb_spec s "high") as [->|]; [simpl; tauto|].
  destruct (String.eqb_spec s "medium") as [->|]; [simpl; tauto|].
  destruct (String.eqb_spec s "low") as [->|]; simpl; tauto.
Qed.

Lemma normalized_importance_fixed (s : string) :
  In s importance_levels -> normalized_importance s = s.
Proof.
  unfold importance_levels. simpl.
  intros [<-|[<-|[<-|[<-|[]]]]]; reflexivity.
Qed.

Lemma t1_event_decoded (e : GameEvent) :
  Track1Models.GameEvent_from_dict (GameEvent_to_dict e)
  = Ok (GameEvent_obj (normalized_event e)).
Proof.
  unfold Track1Models.GameEvent_from_dict, GameEvent_to_dict,
    GameEvent_obj, normalized_event, normalized_importance,
    pd_get_default. simpl.
  now destruct (dict_mem (importance e) Track1.IMPORTANCE_RANK).
Qed.

(** Decoding an encoded event on track 1 gives the event back with its
    importance normalized: unchanged when the importance is one of critical,
    high, medium and low, and with importance "low" otherwise.  All other
    fields, the tags included, come back as they were. *)
Theorem track1_event_round_trip :
  forall e : GameEvent,
    Track1Models.GameEvent_from_dict (GameEvent_to_dict e)
    = Ok (GameEvent_obj (normalized_event e)) /\
    (In (importance e) importance_levels ->
     Track1Models.GameEvent_from_dict (GameEvent_to_dict e)
     = Ok (GameEvent_obj e)).
Proof.
  intros e.
  pose proof (t1_event_decoded e) as H.
  split; [exact H|]. intros Hl. rewrite H.
  unfold normalized_event. rewrite (normalized_importance_fixed _ Hl).
  now destruct e.
Qed.

(** An event of importance "high". *)
Lemma track1_event_round_trip_witness :
  Track1Models.GameEvent_from_dict
    (GameEvent_to_dict (plain_event "a" "high"))
  = Ok (GameEvent_obj (plain_event "a" "high")).
Proof.
  apply (proj2 (track1_event_round_trip (plain_event "a" "high"))).
  simpl. tauto.
Defined.

(** [GameEvent.from_dict] of track 1 fails in three cases only: the
    importance value is a list or a dictionary ([TypeError]), or the key "id"
    or the key "type" is missing ([KeyError]); every other field has a
    default.  Whenever it succeeds, the importance of the event it builds is
    one of critical, high, medium and low, whatever the dictionary held. *)
Theorem track1_event_from_dict_lenient :
  forall data : pydict,
    ((exists g, Track1Models.GameEvent_from_dict data = Ok g) <->
     hashable (pd_get_default "importance" (PStr "low") data) = true /\
     pd_get "id" data <> None /\ pd_get "type" data <> None) /\
    (forall g,
        Track1Models.GameEvent_from_dict data = Ok g ->
        exists s, obj_importance g = PStr s /\ In s importance_levels) /\
    (forall e,
        Track1Models.GameEvent_from_dict data = Raise e ->
        e = TypeError \/ e = KeyError "id" \/ e = KeyError "type").
Proof.
  intros data. unfold Track1Models.GameEvent_from_dict.
  destruct (hashable (pd_get_default "importance" (PStr "low") data)) eqn:Hh;
    simpl.
  - destruct (pd_get "id" data) as [i|] eqn:Hi;
      [destruct (pd_get "type" data) as [t|] eqn:Ht|].
    + split; [|split].
      * split; [intros _; repeat split; discriminate | intros _; eauto].
      * intros g [= <-]. simpl.
        destruct (pd_get_default "importance" (PStr "low") data) as
          [| | |s| |]; try (exists "low"; split; [reflexivity|simpl; tauto]).
        destruct (dict_mem s Track1.IMPORTANCE_RANK) eqn:Hm.
        -- exists s. split; [reflexivity|].
           pose proof (normalized_importance_level s) as Hn.
           unfold normalized_importance in Hn. now rewrite Hm in Hn.
        -- exists "low". split; [reflexivity | simpl; tauto].
      * discriminate.
    + split; [|split].
      * split; [intros [g Hg]; discriminate | intros (_ & _ & H); congruence].
      * discriminate.
      * intros e [= <-]. auto.
    + split; [|split].
      * split; [intros [g Hg]; discriminate | intros (_ & H & _); congruence].
      * discriminate.
      * intros e [= <-]. auto.
  - split; [|split].
    + split; [intros [g Hg]; discriminate | intros (H & _); discriminate].
    + discriminate.
    + intros e [= <-]. auto.
Qed.

Lemma py_sum_from_ints (acc : Z) (d : dict) :
  py_sum_from (PInt acc) (map snd (map (fun kv => (fst kv, PInt (snd kv))) d))
  = Ok (PInt (acc + dict_values_sum d)).
Proof.
  revert acc. induction d as [|[k v] d IH]; intros acc; simpl.
  - unfold dict_values_sum. simpl. now rewrite Z.add_0_r.
  - rewrite IH. unfold dict_values_sum. simpl. do 2 f_equal. lia.
Qed.

(** Decoding an encoded breakdown on track 1 gives the breakdown back,
    except that a stored total of 0 is replaced by the sum of the components;
    a stored total other than 0 is kept as it is.  So every breakdown whose
    total is the sum of its components, as those of [score_event], comes back
    unchanged. *)
Theorem track1_breakdown_round_trip :
  forall b : ScoreBreakdown,
    Track1Models.ScoreBreakdown_from_dict (ScoreBreakdown_to_dict b)
    = Ok (ScoreBreakdown_obj (recomputed_breakdown b)) /\
    (total_score b = components_sum b ->
     Track1Models.ScoreBreakdown_from_dict (ScoreBreakdown_to_dict b)
     = Ok (ScoreBreakdown_obj b)) /\
    (forall ev prefs,
        Track1Models.ScoreBreakdown_from_dict
          (ScoreBreakdown_to_dict (Track1.score_event ev prefs))
        = Ok (ScoreBreakdown_obj (Track1.score_event ev prefs))).
Proof.
  assert (H : forall b,
             Track1Models.ScoreBreakdown_from_dict (ScoreBreakdown_to_dict b)
             = Ok (ScoreBreakdown_obj (recomputed_breakdown b))).
  { intros b.
    unfold Track1Models.ScoreBreakdown_from_dict, ScoreBreakdown_to_dict,
      Track1Models.new_ScoreBreakdownObj, pd_get_default, py_is_zero,
      recomputed_breakdown, ScoreBreakdown_obj, py_of_dict. simpl.
    destruct (total_score b =? 0); [|reflexivity].
    unfold py_sum. rewrite py_sum_from_ints. simpl.
    unfold components_sum. repeat f_equal; lia. }
  assert (H' : forall b, total_score b = components_sum b ->
               recomputed_breakdown b = b).
  { intros b E. unfold recomputed_breakdown. rewrite <- E.
    destruct b as [bs pb tb cb ts]. simpl.
    now destruct (ts =? 0). }
  intros b. split; [apply H|]. split.
  - intros E. now rewrite H, (H' b E).
  - intros ev prefs. rewrite H, H'; reflexivity.
Qed.

(** A breakdown with its own total. *)
Lemma track1_breakdown_round_trip_witness :
  Track1Models.ScoreBreakdown_from_dict
    (ScoreBreakdown_to_dict (mkScoreBreakdown 100 30 15 [("clutch", 20)] 165))
  = Ok (ScoreBreakdown_obj
          (mkScoreBreakdown 100 30 15 [("clutch", 20)] 165)).
Proof.
  apply (proj1 (proj2 (track1_breakdown_round_trip
                         (mkScoreBreakdown 100 30 15 [("clutch", 20)] 165)))).
  reflexivity.
Defined.

Lemma py_add_number_r (a : pyval) (z : Z) (r : pyval) :
  py_add a (PInt z) = Ok r -> as_number a <> None.
Proof.
  destruct a as [|b| | | |]; try destruct b; simpl; discriminate.
Qed.

Lemma py_add_number_inv (a b r : pyval) :
  py_add a b = Ok r -> as_number r <> None ->
  as_number a <> None /\ as_number b <> None.
Proof.
  unfold py_add.
  destruct (as_number a) as [x|] eqn:Ea, (as_number b) as [y|] eqn:Eb;
    try (intros _ _; split; discriminate).
  all: destruct a as [|ba| | | |], b as [|bb| | | |];
    try destruct ba; try destruct bb; simpl in *;
    try discriminate; intros [= <-]; simpl; congruence.
Qed.

Lemma py_add_numbers (a b : pyval) (x y : Z) :
  as_number a = Some x -> as_number b = Some y ->
  py_add a b = Ok (PInt (x + y)).
Proof. intros Ha Hb. unfold py_add. now rewrite Ha, Hb. Qed.

Lemma py_sum_from_ok (vs : list pyval) (acc : Z) :
  (exists z, py_sum_from (PInt acc) vs = Ok (PInt z)) <->
  Forall (fun v => as_number v <> None) vs.
Proof.
  revert acc. induction vs as [|v vs IH]; intros acc; simpl.
  - split; [constructor | eauto].
  - destruct (as_number v) as [n|] eqn:En.
    + rewrite (py_add_numbers (PInt acc) v acc n eq_refl En), IH.
      split; [constructor; congruence | now inversion 1].
    + split; [|inversion 1; congruence].
      intros [z Hz]. exfalso.
      destruct (py_add (PInt acc) v) as [r|] eqn:Ea; [|discriminate].
      destruct v as [|b| | | |]; try destruct b; discriminate.
Qed.

Lemma py_sum_from_number (vs : list pyval) (acc : Z) (r : pyval) :
  py_sum_from (PInt acc) vs = Ok r -> exists z, r = PInt z.
Proof.
  revert acc. induction vs as [|v vs IH]; intros acc; simpl.
  - intros [= <-]. eauto.
  - destruct (py_add (PInt acc) v) as [r'|] eqn:Ea; [|discriminate].
    destruct (as_number v) as [n|] eqn:En.
    + rewrite (py_add_numbers (PInt acc) v acc n eq_refl En) in Ea.
      injection Ea as <-. apply IH.
    + destruct v as [|b| | | |]; try destruct b; discriminate.
Qed.

(** [ScoreBreakdown.from_dict] of track 1 on a dictionary without floats
    (the values of [pyval]).  With the three scores present, a stored total
    that is not 0 is kept and nothing is added up.  With a total of 0, or
    none, the total is computed, and among these values that succeeds
    exactly when the three scores are integers or booleans and the context
    boosts are a dictionary of integers and booleans. *)
Theorem track1_breakdown_from_dict_total :
  forall (data : pydict) (base player team : pyval),
    pd_get "base_score" data = Some base ->
    pd_get "player_boost" data = Some player ->
    pd_get "team_boost" data = Some team ->
    (py_is_zero (pd_get_default "total_score" (PInt 0) data) = false ->
     Track1Models.ScoreBreakdown_from_dict data
     = Ok (mkScoreBreakdownObj base player team
             (pd_get_default "context_boosts" (PDict []) data)
             (pd_get_default "total_score" (PInt 0) data))) /\
    (py_is_zero (pd_get_default "total_score" (PInt 0) data) = true ->
     ((exists g, Track1Models.ScoreBreakdown_from_dict data = Ok g) <->
      as_number base <> None /\ as_number player <> None /\
      as_number team <> None /\
      exists d,
        pd_get_default "context_boosts" (PDict []) data = PDict d /\
        Forall (fun v => as_number v <> None) (map snd d))).
Proof.
  intros data base player team Hb Hp Ht.
  unfold Track1Models.ScoreBreakdown_from_dict.
  rewrite Hb, Hp, Ht. unfold Track1Models.new_ScoreBreakdownObj.
  split; intros Hz; rewrite Hz; [reflexivity|].
  split.
  - intros [g Hg].
    destruct (py_add base player) as [bp|] eqn:E1; [|discriminate].
    destruct (py_add bp team) as [bpt|] eqn:E2; [|discriminate].
    destruct (pd_get_default "context_boosts" (PDict []) data)
      as [| | | | |d]; try discriminate.
    unfold py_sum in Hg.
    destruct (py_sum_from (PInt 0) (map snd d)) as [s|] eqn:E3;
      [|discriminate].
    destruct (py_sum_from_number _ _ _ E3) as [z ->].
    destruct (py_add bpt (PInt z)) as [t|] eqn:E4; [|discriminate].
    pose proof (py_add_number_r _ _ _ E4) as Nbpt.
    destruct (py_add_number_inv _ _ _ E2 Nbpt) as [Nbp Nt].
    destruct (py_add_number_inv _ _ _ E1 Nbp) as [Nb Np].
    repeat split; auto. exists d. split; [reflexivity|].
    apply (py_sum_from_ok _ 0). eauto.
  - intros (Hnb & Hnp & Hnt & d & -> & Hd).
    destruct (as_number base) as [nb|] eqn:Eb; [|congruence].
    destruct (as_number player) as [np|] eqn:Ep; [|congruence].
    destruct (as_number team) as [nt|] eqn:Et; [|congruence].
    rewrite (py_add_numbers _ _ _ _ Eb Ep).
    rewrite (py_add_numbers (PInt (nb + np)) team (nb + np) nt eq_refl Et).
    apply (py_sum_from_ok _ 0) in Hd as [z Hz']. unfold py_sum.
    rewrite Hz'. simpl. eauto.
Qed.

(** A breakdown without a stored total and with a boolean among its
    scores. *)
Lemma track1_breakdown_from_dict_total_witness :
  (exists g,
      Track1Models.ScoreBreakdown_from_dict
        [("base_score", PInt 100); ("player_boost", PBool true);
         ("team_boost", PInt 0)] = Ok g) <->
  as_number (PInt 100) <> None /\ as_number (PBool true) <> None /\
  as_number (PInt 0) <> None /\
  exists d,
    pd_get_default "context_boosts" (PDict [])
      [("base_score", PInt 100); ("player_boost", PBool true);
       ("team_boost", PInt 0)] = PDict d /\
    Forall (fun v => as_number v <> None) (map snd d).
Proof.
  apply (track1_breakdown_from_dict_total
           [("base_score", PInt 100); ("player_boost", PBool true);
            ("team_boost", PInt 0)]
           (PInt 100) (PBool true) (PInt 0)); reflexivity.
Defined.

Lemma t1_highlight_decoded (h : Highlight) :
  Track1Models.Highlight_from_dict (Highlight_to_dict h)
  = Ok (Highlight_obj (normalized_highlight h)).
Proof.
  unfold Track1Models.Highlight_from_dict, Highlight_to_dict.
  cbn [pd_get String.eqb Ascii.eqb Bool.eqb].
  now rewrite (t1_event_decoded (event h)).
Qed.

(** Decoding an encoded highlight on track 1 gives the highlight back with
    the importance of its event normalized, so a highlight whose event has
    one of the four importance levels comes back unchanged; and decoding an
    encoded preference gives the preference back, [None] being decoded as the
    preference without favorites. *)
Theorem track1_highlight_round_trip :
  forall (h : Highlight) (p : UserPreference),
    Track1Models.Highlight_from_dict (Highlight_to_dict h)
    = Ok (Highlight_obj (normalized_highlight h)) /\
    (In (importance (event h)) importance_levels ->
     Track1Models.Highlight_from_dict (Highlight_to_dict h)
     = Ok (Highlight_obj h)) /\
    Track1Models.UserPreference_from_dict (Some (UserPreference_to_dict p))
    = UserPreference_obj p /\
    Track1Models.UserPreference_from_dict None
    = UserPreference_obj (mkUserPreference None None).
Proof.
  intros h p. pose proof (t1_highlight_decoded h) as H.
  split; [exact H|]. split; [|split; reflexivity].
  intros Hl. rewrite H. unfold Highlight_obj, normalized_highlight. simpl.
  unfold normalized_event. rewrite (normalized_importance_fixed _ Hl).
  now destruct h as [[] ? ? ?].
Qed.

(** The highlight of a critical event. *)
Lemma track1_highlight_round_trip_witness :
  Track1Models.Highlight_from_dict
    (Highlight_to_dict (mkHighlight (plain_event "a" "critical") 1 100 "x"))
  = Ok (Highlight_obj (mkHighlight (plain_event "a" "critical") 1 100 "x")).
Proof.
  apply (proj1 (proj2 (track1_highlight_round_trip
                         (mkHighlight (plain_event "a" "critical") 1 100 "x")
                         (mkUserPreference None None)))).
  simpl. tauto.
Defined.

(* ================================================================== *)
(** ** Encoding and decoding, track 2 *)

(** On track 2 decoding an encoded event, preference, breakdown or
    highlight gives it back exactly: the importance is stored as it is, also
    when it is none of the four levels, and so is a total of 0. *)
Theorem track2_round_trips :
  forall (e : GameEvent) (p : UserPreference) (b : ScoreBreakdown)
         (h : Highlight),
    Track2Models.GameEvent_from_dict (GameEvent_to_dict e)
    = Ok (GameEvent_obj e) /\
    Track2Models.UserPreference_from_dict (UserPreference_to_dict p)
    = Ok (UserPreference_obj p) /\
    Track2Models.ScoreBreakdown_from_dict (ScoreBreakdown_to_dict b)
    = Ok (ScoreBreakdown_obj b) /\
    Track2Models.Highlight_from_dict (Highlight_to_dict h)
    = Ok (Highlight_obj h).
Proof.
  intros e p b h. repeat split; reflexivity.
Qed.

(** [GameEvent.from_dict] of track 2 succeeds exactly when every key of the
    dictionary is a field and the eight fields other than tags are present;
    it raises [TypeError] otherwise and never [KeyError].  The event it
    builds holds the importance of the dictionary unchanged, and the empty
    list of tags when the dictionary has none. *)
Theorem track2_event_from_dict_strict :
  forall data : pydict,
    ((exists g, Track2Models.GameEvent_from_dict data = Ok g) <->
     Track2Models.only_fields Track2Models.GameEvent_fields data = true /\
     forall k,
       In k ["id"; "type"; "timestamp"; "quarter"; "player"; "team";
             "description"; "importance"] ->
       pd_get k data <> None) /\
    (forall e, Track2Models.GameEvent_from_dict data = Raise e ->
               e = TypeError) /\
    (forall g,
        Track2Models.GameEvent_from_dict data = Ok g ->
        pd_get "importance" data = Some (obj_importance g) /\
        obj_tags g = pd_get_default "tags" (PList []) data).
Proof.
  intros data. unfold Track2Models.GameEvent_from_dict.
  destruct (Track2Models.only_fields Track2Models.GameEvent_fields data).
  - destruct (pd_get "id" data) eqn:E1, (pd_get "type" data) eqn:E2,
      (pd_get "timestamp" data) eqn:E3, (pd_get "quarter" data) eqn:E4,
      (pd_get "player" data) eqn:E5, (pd_get "team" data) eqn:E6,
      (pd_get "description" data) eqn:E7, (pd_get "importance" data) eqn:E8.
    all: split; [split|split].
    all: try (intros [g Hg]; discriminate Hg).
    all: try (intros e' [= <-]; reflexivity).
    all: try (intros g' Hg; discriminate Hg).
    all: try (intros (_ & Hk); exfalso;
              first [ apply (Hk "id"); [simpl; tauto | assumption]
                    | apply (Hk "type"); [simpl; tauto | assumption]
                    | apply (Hk "timestamp"); [simpl; tauto | assumption]
                    | apply (Hk "quarter"); [simpl; tauto | assumption]
                    | apply (Hk "player"); [simpl; tauto | assumption]
                    | apply (Hk "team"); [simpl; tauto | assumption]
                    | apply (Hk "description"); [simpl; tauto | assumption]
                    | apply (Hk "importance"); [simpl; tauto | assumption] ]).
    + intros _. split; [reflexivity|]. intros k Hk. simpl in Hk.
      destruct Hk as [<-|[<-|[<-|[<-|[<-|[<-|[<-|[<-|[]]]]]]]]]; congruence.
    + intros _. eauto.
    + intros g' [= <-]. simpl. auto.
  - split; [split|split].
    + intros [g Hg]. discriminate Hg.
    + intros [H _]. discriminate H.
    + intros e [= <-]. reflexivity.
    + intros g Hg. discriminate Hg.
Qed.

(* ================================================================== *)
(** ** The command-line layer *)

Lemma str_truthy_iff (s : string) : str_truthy s = true <-> s <> "".
Proof.
  unfold str_truthy. destruct (String.eqb_spec s ""); simpl;
    split; congruence.
Qed.

Lemma favorite_match_iff (o : option string) (s : string) :
  opt_str_truthy o && Track2Cli.eq_opt_str s o = true <->
  exists name, o = Some name /\ name <> "" /\ s = name.
Proof.
  destruct o as [t|]; simpl.
  - rewrite andb_true_iff, str_truthy_iff, String.eqb_eq. split.
    + intros [H1 H2]. exists t. auto.
    + intros (n & [= <-] & H1 & H2). auto.
  - split; [discriminate | intros (n & H & _); discriminate].
Qed.

Lemma matches_iff (p : UserPreference) (h : Highlight) :
  Track2Cli.matches p h = true <->
  (exists name, favorite_player p = Some name /\ name <> "" /\
                player (event h) = name) \/
  (exists name, favorite_team p = Some name /\ name <> "" /\
                team (event h) = name).
Proof.
  rewrite <- !favorite_match_iff. unfold Track2Cli.matches.
  destruct (opt_str_truthy (favorite_player p)
            && Track2Cli.eq_opt_str (player (event h)) (favorite_player p)),
    (opt_str_truthy (favorite_team p)
     && Track2Cli.eq_opt_str (team (event h)) (favorite_team p));
    split; auto; intros [H|H]; discriminate.
Qed.

Lemma filter_idempotent {A : Type} (f : A -> bool) (l : list A) :
  filter f (filter f l) = filter f l.
Proof.
  induction l as [|x l IH]; simpl; [reflexivity|].
  destruct (f x) eqn:E; simpl; rewrite ?E, IH; reflexivity.
Qed.

(** [apply_only_filter] with a preference keeps exactly the highlights
    whose player is the non-empty favorite player or whose team is the
    non-empty favorite team; filtering twice changes nothing more.  A
    preference object without any non-empty favorite removes every
    highlight, whereas no preference ([None]) keeps them all.  The kept
    highlights come out unchanged, in input order and each as often as it
    occurs: the result for a concatenation is the concatenation of the
    results, and a single highlight is returned as it is or dropped. *)
Theorem apply_only_filter_keeps_matches :
  forall (highlights : list Highlight) (p : UserPreference),
    (forall h,
        In h (Track2Cli.apply_only_filter highlights (Some p)) <->
        In h highlights /\
        ((exists name, favorite_player p = Some name /\ name <> "" /\
                       player (event h) = name) \/
         (exists name, favorite_team p = Some name /\ name <> "" /\
                       team (event h) = name))) /\
    Track2Cli.apply_only_filter
      (Track2Cli.apply_only_filter highlights (Some p)) (Some p)
    = Track2Cli.apply_only_filter highlights (Some p) /\
    (opt_str_truthy (favorite_player p) = false ->
     opt_str_truthy (favorite_team p) = false ->
     Track2Cli.apply_only_filter highlights (Some p) = []) /\
    Track2Cli.apply_only_filter highlights None = highlights /\
    (forall (more : list Highlight) (preference : option UserPreference),
        Track2Cli.apply_only_filter (highlights ++ more)%list preference
        = (Track2Cli.apply_only_filter highlights preference
           ++ Track2Cli.apply_only_filter more preference)%list) /\
    (forall h,
        Track2Cli.apply_only_filter [h] (Some p) = [h] \/
        Track2Cli.apply_only_filter [h] (Some p) = []).
Proof.
  intros hs p. unfold Track2Cli.apply_only_filter.
  split; [|split; [apply filter_idempotent | split; [|split; [reflexivity|]]]].
  - intros h. now rewrite filter_In, matches_iff.
  - intros Hp Ht.
    assert (E : forall h, Track2Cli.matches p h = false).
    { intros h. unfold Track2Cli.matches. now rewrite Hp, Ht. }
    induction hs as [|h hs IH]; simpl; [reflexivity | now rewrite E].
  - split.
    + intros more [q|]; [apply filter_app | reflexivity].
    + intros h. simpl. destruct (Track2Cli.matches p h); auto.
Qed.

(** A preference object whose only favorite is the empty string. *)
Lemma apply_only_filter_keeps_matches_witness :
  Track2Cli.apply_only_filter
    [mkHighlight (plain_event "a" "critical") 1 100 "x"]
    (Some (mkUserPreference None (Some ""))) = [].
Proof.
  apply (proj1 (proj2 (proj2 (apply_only_filter_keeps_matches
           [mkHighlight (plain_event "a" "critical") 1 100 "x"]
           (mkUserPreference None (Some "")))))); reflexivity.
Defined.

Lemma validate_name_cases (name : string) (names : list string) :
  (str_truthy name && negb (str_in name names) = true <->
   name <> "" /\ ~ In name names).
Proof.
  rewrite andb_true_iff, negb_true_iff, str_truthy_iff.
  split; intros [H1 H2]; split; auto.
  - intros H. apply str_in_In in H. congruence.
  - destruct (str_in name names) eqn:E; [|reflexivity].
    apply str_in_In in E. contradiction.
Qed.

Lemma opt_str_truthy_iff (o : option string) :
  opt_str_truthy o = true <-> exists name, o = Some name /\ name <> "".
Proof.
  destruct o as [s|]; simpl.
  - rewrite str_truthy_iff. split; [eauto | now intros (n & [= <-] & H)].
  - split; [discriminate | intros (n & H & _); discriminate].
Qed.

(** The check of one name against the names of the events. *)
Lemma missing_name_iff (o : option string) (names : list string)
    (error : string -> exn) :
  (exists e,
      match o with
      | Some name =>
          if str_truthy name && negb (str_in name names)
          then Some (error name) else None
      | None => None
      end = Some e) <->
  exists name, o = Some name /\ name <> "" /\ ~ In name names.
Proof.
  destruct o as [s|].
  - destruct (str_truthy s && negb (str_in s names)) eqn:E.
    + apply validate_name_cases in E. split; [intros _; eauto | eauto].
    + split; [intros [e He]; discriminate|].
      intros (n & [= <-] & H). apply validate_name_cases in H. congruence.
  - split; [intros [e He]; discriminate | intros (n & H & _); discriminate].
Qed.

(** The three outcomes of [validate_preferences]. *)
Lemma validate_preferences_cases :
  forall (player_name team_name : option string) (events : list GameEvent),
    (Track2Cli.validate_preferences player_name team_name events = Ok None
     <-> opt_str_truthy player_name = false
         /\ opt_str_truthy team_name = false) /\
    ((exists e,
         Track2Cli.validate_preferences player_name team_name events
         = Raise e) <->
     (exists name, player_name = Some name /\ name <> "" /\
                   ~ In name (map player events)) \/
     (exists name, team_name = Some name /\ name <> "" /\
                   ~ In name (map team events))) /\
    (forall p,
        Track2Cli.validate_preferences player_name team_name events
        = Ok (Some p) ->
        p = mkUserPreference player_name team_name /\
        forall name,
          player_name = Some name -> name <> "" ->
          exists ev,
            In ev events /\ player ev = name /\
            player_boost (Track2.calculate_score ev (Some p)) = 30).
Proof.
  intros pl tm events. unfold Track2Cli.validate_preferences.
  match goal with
  | |- context [match ?pe with Some e => Raise e | None => match ?te with Some e' => _ | None => _ end end] =>
      set (PE := pe); set (TE := te)
  end.
  assert (HP : (exists e, PE = Some e) <->
               exists name, pl = Some name /\ name <> "" /\
                            ~ In name (map player events))
    by apply missing_name_iff.
  assert (HT : (exists e, TE = Some e) <->
               exists name, tm = Some name /\ name <> "" /\
                            ~ In name (map team events))
    by apply missing_name_iff.
  assert (HB : forall name, pl = Some name -> name <> "" -> PE = None ->
               exists ev, In ev events /\ player ev = name).
  { intros name Hn Hne HPE.
    destruct (in_dec string_dec name (map player events)) as [Hin|Hnot].
    - apply in_map_iff in Hin as (ev & Hev & Hin). eauto.
    - assert (Hex : exists e, PE = Some e) by (apply HP; eauto).
      destruct Hex as [e He]. congruence. }
  clearbody PE TE.
  destruct (opt_str_truthy pl) eqn:Tp, (opt_str_truthy tm) eqn:Tt; simpl.
  4: { split; [tauto|]. split; [|discriminate].
       split; [intros [e He]; discriminate|].
       intros [(n & Hn & Hne & _)|(n & Hn & Hne & _)].
       - assert (opt_str_truthy pl = true)
           by (apply opt_str_truthy_iff; eauto). congruence.
       - assert (opt_str_truthy tm = true)
           by (apply opt_str_truthy_iff; eauto). congruence. }
  all: split; [split; [|intros [? ?]; discriminate]|].
  all: destruct PE as [e1|]; [|destruct TE as [e2|]]; try discriminate.
  all: split.
  all: try (split; [intros _ | intros _; eauto];
            first [ left; apply HP; eauto; fail | right; apply HT; eauto ]).
  all: try discriminate.
  all: try (split; [intros [e He]; discriminate|];
            intros [H|H];
            [ apply HP in H as [e He] | apply HT in H as [e He] ];
            congruence).
  all: intros p [= <-]; split; [reflexivity|].
  all: intros name Hn Hne.
  all: destruct (HB name Hn Hne eq_refl) as (ev & Hin & Hev).
  all: exists ev; split; [exact Hin|]; split; [exact Hev|].
  all: unfold Track2.calculate_score, Track2.calculate_player_boost; simpl.
  all: rewrite Hn, Hev; now rewrite String.eqb_refl.
Qed.

(** The only exception [validate_preferences] raises is [ValueError]. *)
Lemma validate_preferences_error_kind
    (player_name team_name : option string) (events : list GameEvent)
    (e : exn) :
  Track2Cli.validate_preferences player_name team_name events = Raise e ->
  exists msg, e = ValueError msg.
Proof.
  unfold Track2Cli.validate_preferences.
  destruct (negb (opt_str_truthy player_name)
            && negb (opt_str_truthy team_name)); [discriminate|].
  destruct player_name as [pn|], team_name as [tn|];
    repeat case_if; intros H; inversion H; eauto.
Qed.

(** [validate_preferences] returns [None] exactly when neither name is
    given (absent or empty).  It raises exactly when a given non-empty
    player is the player of no event or a given non-empty team is the team
    of no event, and what it raises is a [ValueError].  Otherwise it returns
    the preference with the two names as given, and then a non-empty
    favorite player is the player of some event, which the scorer of track 2
    boosts by 30. *)
Theorem validate_preferences_outcomes :
  forall (player_name team_name : option string) (events : list GameEvent),
    (Track2Cli.validate_preferences player_name team_name events = Ok None
     <-> opt_str_truthy player_name = false
         /\ opt_str_truthy team_name = false) /\
    ((exists msg,
         Track2Cli.validate_preferences player_name team_name events
         = Raise (ValueError msg)) <->
     (exists name, player_name = Some name /\ name <> "" /\
                   ~ In name (map player events)) \/
     (exists name, team_name = Some name /\ name <> "" /\
                   ~ In name (map team events))) /\
    (forall e,
        Track2Cli.validate_preferences player_name team_name events
        = Raise e -> exists msg, e = ValueError msg) /\
    (forall p,
        Track2Cli.validate_preferences player_name team_name events
        = Ok (Some p) ->
        p = mkUserPreference player_name team_name /\
        forall name,
          player_name = Some name -> name <> "" ->
          exists ev,
            In ev events /\ player ev = name /\
            player_boost (Track2.calculate_score ev (Some p)) = 30).
Proof.
  intros pl tm events.
  destruct (validate_preferences_cases pl tm events) as (H1 & H2 & H3).
  split; [exact H1|]. split; [|split; [|exact H3]].
  - rewrite <- H2. split.
    + intros [msg H]. eauto.
    + intros [e H].
      destruct (validate_preferences_error_kind _ _ _ _ H) as [msg ->].
      eauto.
  - intros e. apply validate_preferences_error_kind.
Qed.

(** A player of the events as favorite player. *)
Lemma validate_preferences_outcomes_witness :
  exists ev,
    In ev two_critical /\ player ev = "Player" /\
    player_boost
      (Track2.calculate_score ev
         (Some (mkUserPreference (Some "Player") None))) = 30.
Proof.
  apply (proj2 (proj2 (proj2 (proj2 (validate_preferences_outcomes
           (Some "Player") None two_critical)))
           (mkUserPreference (Some "Player") None) eq_refl)
           "Player" eq_refl).
  discriminate.
Defined.

(** The document [format_output] of track 1 builds from a selection: its
    metadata report the number of input events and the number of selected
    highlights, which is the number of encoded highlights and never exceeds
    the number of input events; and decoding the encoded highlights gives the
    selected highlights back in order, with the importance of their events
    normalized. *)
Theorem track1_format_output_of_selection :
  forall (events : list GameEvent) (prefs : option UserPreference)
         (min_count max_count : Z) (p : UserPreference),
    exists encoded metadata,
      pd_get "highlights"
        (Track1Cli.format_output
           (Track1.select_highlights events prefs min_count max_count)
           (len events) p)
      = Some (PList (map PDict encoded)) /\
      map Track1Models.Highlight_from_dict encoded
      = map (fun h => Ok (Highlight_obj (normalized_highlight h)))
            (Track1.select_highlights events prefs min_count max_count) /\
      pd_get "metadata"
        (Track1Cli.format_output
           (Track1.select_highlights events prefs min_count max_count)
           (len events) p)
      = Some (PDict metadata) /\
      pd_get "total_events" metadata = Some (PInt (len events)) /\
      pd_get "selected_count" metadata = Some (PInt (len encoded)) /\
      pd_get "preferences" metadata
      = Some (PDict (UserPreference_to_dict p)) /\
      0 <= len encoded <= len events.
Proof.
  intros events prefs mn mx p.
  set (out := Track1.select_highlights events prefs mn mx).
  exists (map Highlight_to_dict out). eexists.
  split; [|split; [|split; [reflexivity|]]].
  - unfold Track1Cli.format_output. cbn [pd_get String.eqb Ascii.eqb Bool.eqb].
    now rewrite map_map.
  - rewrite map_map. apply map_ext. intros h. apply t1_highlight_decoded.
  - split; [reflexivity|]. split; [now rewrite len_map|].
    split; [reflexivity|]. rewrite len_map.
    destruct (t1_output_sub_input events prefs mn mx) as [rest P].
    apply len_perm in P. rewrite len_app, len_map in P. fold out in P.
    pose proof (len_nonneg out). pose proof (len_nonneg rest). lia.
Qed.

(* ================================================================== *)
(** ** Unknown importance *)

Lemma unknown_importance_eqb (imp : string) :
  ~ In imp importance_levels ->
  String.eqb imp "critical" = false /\ String.eqb imp "high" = false /\
  String.eqb imp "medium" = false /\ String.eqb imp "low" = false.
Proof.
  unfold importance_levels. simpl. intros H.
  repeat split; apply String.eqb_neq; intros ->; tauto.
Qed.

Lemma importance_rank_values (imp : string) :
  (In imp importance_levels -> 1 <= Track1._importance_rank imp) /\
  (~ In imp importance_levels -> Track1._importance_rank imp = 0).
Proof.
  split.
  - unfold importance_levels. simpl.
    intros [<-|[<-|[<-|[<-|[]]]]]; vm_compute; discriminate.
  - intros H. destruct (unknown_importance_eqb imp H) as (H1 & H2 & H3 & H4).
    unfold Track1._importance_rank, dict_get_default, Track1.IMPORTANCE_RANK,
      dict_get. now rewrite H1, H2, H3, H4.
Qed.

(** An importance that is none of critical, high, medium and low is scored
    as low (base score 25); the explanation of track 1 opens with the
    sentence of a low event and that of track 2 with "Notable play", whatever
    the breakdown; but the comparator of both tracks ranks the event behind
    every known level: at equal score and quarter the event of a known
    importance comes first, whatever the ids. *)
Theorem unknown_importance_scored_low_ranked_last :
  forall (ev other : GameEvent) (prefs : option UserPreference)
         (b b' : ScoreBreakdown),
    ~ In (importance ev) importance_levels ->
    base_score (Track1.score_event ev prefs) = 25 /\
    Track2.calculate_base_score ev = 25 /\
    (exists rest,
        Track1.generate_explanation ev b
        = (("This " ++ replace_char "_" " " (type ev) ++ " by " ++ player ev
            ++ " added to the overall flow of the game.") ++ rest)%string) /\
    (exists rest,
        Track2._generate_explanation ev b prefs
        = ("Notable play" ++ rest)%string) /\
    (In (importance other) importance_levels ->
     total_score b' = total_score b ->
     quarter other = quarter ev ->
     key_ltb (Track1.sort_key (other, b')) (Track1.sort_key (ev, b)) = true /\
     key_ltb (Track2.sort_key (other, b')) (Track2.sort_key (ev, b)) = true).
Proof.
  intros ev other prefs b b' Hu.
  destruct (unknown_importance_eqb _ Hu) as (H1 & H2 & H3 & H4).
  destruct (base_score_cases ev prefs) as [Hb Hb2].
  rewrite Hb2, Hb, H1, H2, H3.
  split; [reflexivity|]. split; [reflexivity|]. split.
  { destruct (t1_explanation_shape ev b) as (_ & rest & ->). exists rest.
    f_equal. unfold Track1.importance_sentence. now rewrite H1, H2, H3. }
  split.
  { destruct (t2_explanation_shape ev b prefs) as (middle & ->).
    exists (middle ++ ".")%string.
    unfold t2_opening. now rewrite H1, H2, H3, H4. }
  intros Hk Hs Hq.
  pose proof (proj1 (importance_rank_values (importance other)) Hk) as Hr.
  pose proof (proj2 (importance_rank_values (importance ev)) Hu) as Hr0.
  assert (E : forall s1 s2,
             key_ltb (- total_score b', - quarter other,
                      - Track1._importance_rank (importance other), s1)
                     (- total_score b, - quarter ev,
                      - Track1._importance_rank (importance ev), s2) = true).
  { intros s1 s2. unfold key_ltb. rewrite Hs, Hq, Hr0.
    rewrite Z.ltb_irrefl, Z.eqb_refl, Z.ltb_irrefl, Z.eqb_refl. simpl.
    destruct (Z.ltb_spec (- Track1._importance_rank (importance other)) 0);
      [reflexivity | lia]. }
  split; apply E.
Qed.

(** An event of importance "legendary" and id "a" against a low event of
    id "z" with the same score and quarter: the low event is ranked first on
    both tracks although its id is the greater one. *)
Lemma unknown_importance_scored_low_ranked_last_witness :
  key_ltb
    (Track1.sort_key
       (plain_event "z" "low", Track1.score_event (plain_event "z" "low") None))
    (Track1.sort_key
       (plain_event "a" "legendary",
        Track1.score_event (plain_event "a" "legendary") None)) = true /\
  key_ltb
    (Track2.sort_key
       (plain_event "z" "low", Track1.score_event (plain_event "z" "low") None))
    (Track2.sort_key
       (plain_event "a" "legendary",
        Track1.score_event (plain_event "a" "legendary") None)) = true.
Proof.
  apply (unknown_importance_scored_low_ranked_last
           (plain_event "a" "legendary") (plain_event "z" "low") None
           (Track1.score_event (plain_event "a" "legendary") None)
           (Track1.score_event (plain_event "z" "low") None)).
  - unfold importance_levels. simpl. intuition discriminate.
  - unfold importance_levels. simpl. auto.
  - reflexivity.
  - reflexivity.
Defined.
